(** * Inventory and sale consistency of the point-of-sale backend (app.py)

    A shallow embedding of the product and sale endpoints of [app.py] over an
    explicit document store, and the properties of the stock/sale protocol.

    Modelling conventions.
    - One tenant: every endpoint works below [users/<uid>], so the store of
      one user is modelled.
    - Documents are Python dictionaries; a key that may be absent is an
      [option] field, and [d.get(k, dflt)] is [default dflt (k d)].
    - Python [float] is IEEE binary64, that is Rocq's primitive [float].
    - [int(v)] of a quantity is kept as the integer it yields; a value on which
      [int] or [float] raises because it does not parse is outside the model.
    - A transaction body computes the list of staged writes from what it read;
      [commit] applies the list atomically or not at all.
    - The document store is the hosted one the code calls: [update] fails on
      a document that does not exist, [set] and [delete] never do,
      [Increment] adds to a number and replaces anything else, and an
      [array_contains] filter compares whole array elements.
    - A document is looked up under its id. An item number that a sale or a
      form posts goes into [document()] as it is: with a "/" in it, it is a
      path of several elements, which the client refuses or reads as a
      document of another collection, and an empty one is no id. The integers
      of the store are signed ones of 64 bits, and a write of a larger one is
      refused. Both are outside the model: the statements that derive the
      answer of [record_sale] or of [add_update_product] from what is posted
      take the item numbers as document ids ([document_id]) and the integers
      written within 64 bits ([int64]). An item number or a sale id in the
      path of a request is one element of it, without "/".
    - The clock, the fresh id of a sale document and the time zone of the
      server are arguments. *)

From Stdlib Require Import ZArith Floats Ascii.
From Stdlib Require OrderedTypeEx Sorted.
From stdpp Require Import gmap strings list fin_maps sorting.

Local Open Scope Z_scope.

(** ** Python values *)

(** [str.upper] on ASCII letters (other characters are left as they are). *)
Definition upper_ascii (c : ascii) : ascii :=
  let n := nat_of_ascii c in
  if ((97 <=? n)%nat && (n <=? 122)%nat)%bool then ascii_of_nat (n - 32) else c.

Fixpoint upper (s : string) : string :=
  match s with
  | EmptyString => EmptyString
  | String c r => String (upper_ascii c) (upper r)
  end.

(** Truth value of a string: [if s:] holds for the non-empty ones. *)
Definition truthy (s : string) : bool :=
  match s with EmptyString => false | String _ _ => true end.

(** [float(n)] for an integer [n]: rounding to the nearest binary64. *)
Definition of_int (z : Z) : float := SF2Prim (binary_normalize 53 1024 z 0 false).

(** The exceptions the endpoints can meet. [NotFound] is the store's error for
    an update of a document that does not exist. *)
Inductive exn :=
| ValueError (msg : string)
| TypeError
| AttributeError
| KeyError
| NotFound.

(** What an endpoint answers: the status code with the message of the body;
    a 500 carries the exception it reports. *)
Inductive Response :=
| Ok200 (message : string)
| BadRequest400 (message : string)
| NotFound404 (message : string)
| ServerError500 (e : exn).

Definition result (A : Type) : Type := exn + A.

Definition ret {A} (a : A) : result A := inr a.
Definition raise {A} (e : exn) : result A := inl e.
Definition bind {A B} (m : result A) (k : A -> result B) : result B :=
  match m with
  | inl e => inl e
  | inr a => k a
  end.

Notation "x <- m ;; k" := (bind m (fun x => k))
  (at level 100, m at next level, right associativity).

(** ** Documents *)

(** A line item of a sale, as the client posts it and as the sale stores it. *)
Record Item := {
  item_number : option string;
  quantity : option Z;
  selling_price : option float;
  import_price : option float
}.

(** The [quantity] field of a product document: absent, the text a form
    posted (with the integer it reads as), or a number written by a sale. *)
Inductive stored_quantity :=
| QAbsent
| QText (z : Z)
| QNumber (z : Z).

(** [int(product_data.get('quantity', 0))] *)
Definition int_quantity (q : stored_quantity) : Z :=
  match q with
  | QAbsent => 0
  | QText z => z
  | QNumber z => z
  end.

Record Product := {
  p_item_number : option string;
  p_item_name : option string;
  p_quantity : stored_quantity;
  p_import_price : option float;
  p_selling_price : option float;
  p_image_urls : option (list string);
  p_image_url : option string
}.

Record Sale := {
  items : list Item;
  total_amount : float;
  timestamp : float
}.

(** The two collections of a user, keyed by document id. *)
Record Store := {
  products : gmap string Product;
  sales : gmap string Sale
}.

(** ** Transactions *)

(** The writes the endpoints stage. *)
Inductive write :=
| UpdateQuantity (key : string) (q : Z)
| IncrementQuantity (key : string) (n : Z)
| SetSale (id : string) (s : Sale)
| DeleteSaleDoc (id : string)
| DeleteProductDoc (key : string).

Definition with_quantity (p : Product) (q : stored_quantity) : Product :=
  {| p_item_number := p_item_number p;
     p_item_name := p_item_name p;
     p_quantity := q;
     p_import_price := p_import_price p;
     p_selling_price := p_selling_price p;
     p_image_urls := p_image_urls p;
     p_image_url := p_image_url p |}.

(** [firestore.Increment(n)] adds to a numeric field and sets any other
    field, or an absent one, to [n]. *)
Definition increment (n : Z) (q : stored_quantity) : stored_quantity :=
  match q with
  | QNumber z => QNumber (z + n)
  | QAbsent | QText _ => QNumber n
  end.

(** One staged write on the store. [update] requires the document to exist;
    [set] and [delete] do not. *)
Definition apply_write (st : Store) (w : write) : option Store :=
  match w with
  | UpdateQuantity key q =>
      match products st !! key with
      | Some p => Some {| products := <[key := with_quantity p (QNumber q)]> (products st);
                          sales := sales st |}
      | None => None
      end
  | IncrementQuantity key n =>
      match products st !! key with
      | Some p => Some {| products := <[key := with_quantity p (increment n (p_quantity p))]> (products st);
                          sales := sales st |}
      | None => None
      end
  | SetSale id s => Some {| products := products st; sales := <[id := s]> (sales st) |}
  | DeleteSaleDoc id => Some {| products := products st; sales := delete id (sales st) |}
  | DeleteProductDoc key => Some {| products := delete key (products st); sales := sales st |}
  end.

(** The commit: the writes in the order they were staged, all or none. *)
Fixpoint commit (st : Store) (ws : list write) : option Store :=
  match ws with
  | [] => Some st
  | w :: rest =>
      match apply_write st w with
      | Some st' => commit st' rest
      | None => None
      end
  end.

(** [@firestore.transactional]: an exception in the body rolls back; a commit
    that the store refuses raises. *)
Definition run_transaction (st : Store) (body : result (list write)) : result Store :=
  ws <- body ;;
  match commit st ws with
  | Some st' => ret st'
  | None => raise NotFound
  end.

(** ** RecordSale: [record_sale] *)

Definition with_import_price (item : Item) (price : float) : Item :=
  {| item_number := item_number item;
     quantity := quantity item;
     selling_price := selling_price item;
     import_price := Some price |}.

(** [f"{product_data.get('item_name')}"] *)
Definition format_name (name : option string) : string :=
  default "None"%string name.

(** The first loop of [update_in_transaction]: every product is read from the
    snapshot, checked, and its new quantity kept in the dictionary
    [product_refs_to_update] under the uppercased item number; the item gets
    the product's import price. *)
Fixpoint read_and_check (snapshot : gmap string Product) (payload : list Item)
    (product_refs_to_update : gmap string Z) : result (list Item * gmap string Z) :=
  match payload with
  | [] => ret ([], product_refs_to_update)
  | item :: rest =>
      let key := upper (default ""%string (item_number item)) in
      match snapshot !! key with
      | None => raise (ValueError ("Product " +:+ key +:+ " not found."))
      | Some product_data =>
          let current_quantity := int_quantity (p_quantity product_data) in
          let quantity_sold := default 0 (quantity item) in
          if current_quantity <? quantity_sold then
            raise (ValueError ("Not enough stock for " +:+ format_name (p_item_name product_data) +:+ "."))
          else
            let new_quantity := current_quantity - quantity_sold in
            let item' := with_import_price item (default (of_int 0) (p_import_price product_data)) in
            r <- read_and_check snapshot rest (<[key := new_quantity]> product_refs_to_update) ;;
            ret (item' :: r.1, r.2)
      end
  end.

(** The second loop: one update per item, with the quantity the dictionary
    holds for its product, and the running total of the sale. *)
Fixpoint stage_updates (product_refs_to_update : gmap string Z) (payload : list Item)
    (total_sale_amount : float) : result (list write * float) :=
  match payload with
  | [] => ret ([], total_sale_amount)
  | item :: rest =>
      match item_number item with
      | None => raise AttributeError
      | Some n =>
          let key := upper n in
          match product_refs_to_update !! key with
          | None => raise KeyError
          | Some new_quantity =>
              match selling_price item, quantity item with
              | Some price, Some q =>
                  r <- stage_updates product_refs_to_update rest
                         (total_sale_amount + price * of_int q)%float ;;
                  ret (UpdateQuantity key new_quantity :: r.1, r.2)
              | _, _ => raise TypeError
              end
          end
      end
  end.

(** [sale_id] is the id that [document()] draws and [now] is [time.time()]. *)
Definition update_in_transaction (snapshot : gmap string Product) (sale_items_payload : list Item)
    (sale_id : string) (now : float) : result (list write) :=
  checked <- read_and_check snapshot sale_items_payload ∅ ;;
  staged <- stage_updates checked.2 checked.1 (of_int 0) ;;
  ret (staged.1 ++ [SetSale sale_id {| items := checked.1;
                                       total_amount := staged.2;
                                       timestamp := now |}]).

Definition record_sale (st : Store) (sale_items : list Item) (sale_id : string) (now : float)
    : Response * Store :=
  match sale_items with
  | [] => (BadRequest400 "Sale must contain at least one item.", st)
  | _ =>
      match run_transaction st (update_in_transaction (products st) sale_items sale_id now) with
      | inr st' => (Ok200 "Sale recorded successfully!", st')
      | inl (ValueError msg) => (BadRequest400 msg, st)
      | inl e => (ServerError500 e, st)
      end
  end.

(** ** DeleteSale: [delete_sale] *)

Fixpoint restore_writes (sale_items : list Item) : list write :=
  match sale_items with
  | [] => []
  | item :: rest =>
      let quantity_restored := default 0 (quantity item) in
      match item_number item with
      | Some n =>
          if (truthy n && (0 <? quantity_restored))%bool
          then IncrementQuantity n quantity_restored :: restore_writes rest
          else restore_writes rest
      | None => restore_writes rest
      end
  end.

Definition restore_stock_and_delete_sale (st : Store) (sale_id : string) : result (list write) :=
  match sales st !! sale_id with
  | None => raise (ValueError "Sale record not found.")
  | Some sale_data => ret (restore_writes (items sale_data) ++ [DeleteSaleDoc sale_id])
  end.

Definition delete_sale (st : Store) (sale_id : string) : Response * Store :=
  match run_transaction st (restore_stock_and_delete_sale st sale_id) with
  | inr st' => (Ok200 "Sale deleted and stock restored.", st')
  | inl (ValueError msg) => (NotFound404 msg, st)
  | inl e => (ServerError500 e, st)
  end.

(** ** DeleteProduct: [delete_product] *)

Definition option_eqb {A} (eqb : A -> A -> bool) (x y : option A) : bool :=
  match x, y with
  | Some a, Some b => eqb a b
  | None, None => true
  | _, _ => false
  end.

(** Equality of two maps as the store compares array elements: the same keys
    with equal values. *)
Definition item_eqb (a b : Item) : bool :=
  (option_eqb String.eqb (item_number a) (item_number b)
   && option_eqb Z.eqb (quantity a) (quantity b)
   && option_eqb PrimFloat.eqb (selling_price a) (selling_price b)
   && option_eqb PrimFloat.eqb (import_price a) (import_price b))%bool.

(** [FieldFilter('items', 'array_contains', value)]: some element of the array
    equals [value]. *)
Definition array_contains (arr : list Item) (value : Item) : bool :=
  existsb (item_eqb value) arr.

(** The value [{'item_number': item_number_upper}] of the cascade's query. *)
Definition item_number_only (item_number_upper : string) : Item :=
  {| item_number := Some item_number_upper;
     quantity := None;
     selling_price := None;
     import_price := None |}.

Definition sales_query (st : Store) (item_number_upper : string) : list (string * Sale) :=
  List.filter (fun doc => array_contains (items doc.2) (item_number_only item_number_upper))
              (map_to_list (sales st)).

Definition delete_product_and_sales_transaction (st : Store) (item_number_upper : string)
    : result (list write) :=
  let sales_docs := sales_query st item_number_upper in
  ret (map (fun sale => DeleteSaleDoc sale.1) sales_docs ++ [DeleteProductDoc item_number_upper]).

(** The removal of the product's images from the bucket comes first and does
    not touch the store; its failures are logged only. *)
Definition delete_product (st : Store) (item_number : string) : Response * Store :=
  let item_number_upper := upper item_number in
  match run_transaction st (delete_product_and_sales_transaction st item_number_upper) with
  | inr st' => (Ok200 "Product and associated sales deleted.", st')
  | inl e => (ServerError500 e, st)
  end.

(** ** Catalog write: [add_update_product] *)

(** The fields of the posted form; form values are text. *)
Record ProductForm := {
  f_item_number : option string;
  f_item_name : option string;
  f_quantity : option Z;
  f_import_price : option float;
  f_selling_price : option float
}.

(** [set(product_data, merge=True)]: a posted field replaces the stored one. *)
Definition merged {A} (posted : option A) (stored : option A) : option A :=
  match posted with
  | Some v => Some v
  | None => stored
  end.

(** [existing_urls_to_keep] is the posted list of kept images and
    [newly_uploaded_urls] the public URLs of the uploaded files. *)
Definition add_update_product (st : Store) (product_data : ProductForm)
    (existing_urls_to_keep newly_uploaded_urls : list string) : Response * Store :=
  let item_number := upper (default ""%string (f_item_number product_data)) in
  if negb (truthy item_number) then (BadRequest400 "Item Number is required.", st)
  else
    let existing := products st !! item_number in
    let final_image_urls := existing_urls_to_keep ++ newly_uploaded_urls in
    let doc :=
      {| p_item_number := Some item_number;
         p_item_name := merged (f_item_name product_data) (existing ≫= p_item_name);
         p_quantity := match f_quantity product_data with
                       | Some z => QText z
                       | None => from_option p_quantity QAbsent existing
                       end;
         p_import_price := merged (f_import_price product_data) (existing ≫= p_import_price);
         p_selling_price := merged (f_selling_price product_data) (existing ≫= p_selling_price);
         p_image_urls := Some final_image_urls;
         p_image_url := Some (default ""%string (head final_image_urls)) |} in
    (Ok200 "Product saved successfully.",
     {| products := <[item_number := doc]> (products st); sales := sales st |}).

(** ** ListSales: [get_sales] *)

(** A naive [datetime] at midnight. *)
Record datetime := {
  year : Z;
  month : Z;
  day : Z
}.

Definition is_leap (y : Z) : bool :=
  ((y mod 4 =? 0) && (negb (y mod 100 =? 0) || (y mod 400 =? 0)))%bool.

Definition days_in_month (y m : Z) : Z :=
  if m =? 2 then (if is_leap y then 29 else 28)
  else if ((m =? 4) || (m =? 6) || (m =? 9) || (m =? 11))%bool then 30
  else 31.

(** [start_dt + timedelta(days=1)] *)
Definition plus_one_day (d : datetime) : datetime :=
  if day d <? days_in_month (year d) (month d)
  then {| year := year d; month := month d; day := day d + 1 |}
  else if month d =? 12
       then {| year := year d + 1; month := 1; day := 1 |}
       else {| year := year d; month := month d + 1; day := 1 |}.

(** The first day of the month after [start_dt], as [get_sales] builds it. *)
Definition next_month_start (start_dt : datetime) : datetime :=
  let next_month_start_year := if month start_dt =? 12 then year start_dt + 1 else year start_dt in
  let next_month_start_month := if month start_dt =? 12 then 1 else month start_dt + 1 in
  {| year := next_month_start_year; month := next_month_start_month; day := 1 |}.

(** [.where('timestamp', '>=', lo).where('timestamp', '<', hi)] *)
Definition timestamp_between (lo hi : float) (doc : string * Sale) : bool :=
  ((lo <=? timestamp doc.2)%float && (timestamp doc.2 <? hi)%float)%bool.

(** [order_by('timestamp', direction=DESCENDING)] *)
Fixpoint insert_descending (doc : string * Sale) (sorted : list (string * Sale))
    : list (string * Sale) :=
  match sorted with
  | [] => [doc]
  | x :: rest =>
      if (timestamp doc.2 <? timestamp x.2)%float
      then x :: insert_descending doc rest
      else doc :: sorted
  end.

Definition order_by_timestamp_descending (docs : list (string * Sale)) : list (string * Sale) :=
  foldr insert_descending [] docs.

(** The profit of one line: [profit_per_item * int(item.get('quantity', 0))]. *)
Definition line_profit (item : Item) : float :=
  ((default (of_int 0) (selling_price item) - default (of_int 0) (import_price item))
   * of_int (default 0%Z (quantity item)))%float.

(** The two nested loops over the streamed sales and their items. *)
Definition add_sale_profit (total_profit : float) (sale : string * Sale) : float :=
  fold_left (fun acc item => (acc + line_profit item)%float) (items sale.2) total_profit.

Section ListSales.

(** [datetime.timestamp()] of a naive datetime: epoch seconds in the time
    zone of the server. *)
Variable timestamp_of : datetime -> float.

(** The query of [get_sales]. [date_filter] and [month_filter] are the two
    request arguments as [strptime] reads them, year, month and day, when they
    are given (a string that [strptime] rejects makes the endpoint answer 500,
    and the dates are taken within the range of [datetime]); the date comes
    first, the month counts only without a date. *)
Definition sales_stream (st : Store) (date_filter : option (Z * Z * Z))
    (month_filter : option (Z * Z)) : list (string * Sale) :=
  let docs := map_to_list (sales st) in
  let selected :=
    match date_filter, month_filter with
    | Some (y, m, d), _ =>
        let start_dt := {| year := y; month := m; day := d |} in
        let end_dt := plus_one_day start_dt in
        List.filter (timestamp_between (timestamp_of start_dt) (timestamp_of end_dt)) docs
    | None, Some (y, m) =>
        let start_dt := {| year := y; month := m; day := 1 |} in
        let end_dt := next_month_start start_dt in
        List.filter (timestamp_between (timestamp_of start_dt) (timestamp_of end_dt)) docs
    | None, None => docs
    end in
  order_by_timestamp_descending selected.

(** The answer: the sales with their ids, and [total_profit]. *)
Definition get_sales (st : Store) (date_filter : option (Z * Z * Z))
    (month_filter : option (Z * Z)) : list (string * Sale) * float :=
  let sales_list := sales_stream st date_filter month_filter in
  (sales_list, fold_left add_sale_profit sales_list (of_int 0)).

End ListSales.

(** The sum the specification defines, in its words: over all line items of
    the returned sales, of [(selling_price - import_price) * quantity]. The
    terms are added in the order of the list, and a field that a line lacks
    counts as 0. *)
Definition spec_line_profit (selling buying : float) (sold : Z) : float :=
  ((selling - buying) * of_int sold)%float.

Definition spec_total_profit (returned : list (string * Sale)) : float :=
  fold_left
    (fun total item =>
       (total + spec_line_profit (default (of_int 0) (selling_price item))
                                 (default (of_int 0) (import_price item))
                                 (default 0%Z (quantity item)))%float)
    (concat (map (fun doc => items doc.2) returned)) (of_int 0).

(** ** Product types: [get_types], [add_type], [delete_type] *)

(** What the endpoints outside the sale engine answer: the status code with
    the message of the body; the message of a 500 is the text of the
    exception and is not kept. *)
Inductive Reply :=
| Reply200 (message : string)
| Reply400 (message : string)
| Reply409 (message : string)
| Reply500.

(** The characters [str.strip] removes, among the ASCII ones. *)
Definition is_space (c : ascii) : bool :=
  let n := nat_of_ascii c in
  (((9 <=? n)%nat && (n <=? 13)%nat) || ((28 <=? n)%nat && (n <=? 32)%nat))%bool.

Fixpoint lstrip (s : string) : string :=
  match s with
  | EmptyString => EmptyString
  | String c r => if is_space c then lstrip r else s
  end.

Fixpoint rstrip (s : string) : string :=
  match s with
  | EmptyString => EmptyString
  | String c r =>
      match rstrip r with
      | EmptyString => if is_space c then EmptyString else String c EmptyString
      | kept => String c kept
      end
  end.

(** [str.strip()] *)
Definition strip (s : string) : string := rstrip (lstrip s).

(** A collection streamed without [order_by] comes in the order of the
    document ids. *)
Fixpoint insert_by_id (doc : string * string) (sorted : list (string * string))
    : list (string * string) :=
  match sorted with
  | [] => [doc]
  | x :: rest =>
      if String.leb doc.1 x.1 then doc :: sorted else x :: insert_by_id doc rest
  end.

(** The collection [product_types]: the [name] of each document, by id. *)
Definition get_types (types : gmap string string) : list (string * string) :=
  foldr insert_by_id [] (map_to_list types).

(** [name] is the posted [name], if any; [new_id] is the id that [add] draws
    for the new document, which the store refuses when it is taken. *)
Definition add_type (types : gmap string string) (name : option string) (new_id : string)
    : Reply * gmap string string :=
  let type_name := strip (default ""%string name) in
  if negb (truthy type_name) then (Reply400 "Type name cannot be empty.", types)
  else
    let existing_types_query :=
      take 1 (List.filter (fun doc => String.eqb doc.2 type_name) (map_to_list types)) in
    if (0 <? length existing_types_query)%nat
    then (Reply409 "This product type already exists.", types)
    else
      match types !! new_id with
      | Some _ => (Reply500, types)
      | None => (Reply200 "Product type added.", <[new_id := type_name]> types)
      end.

Definition delete_type (types : gmap string string) (type_id : string)
    : Reply * gmap string string :=
  (Reply200 "Product type deleted.", delete type_id types).

(** ** Catalog reads: [get_products] *)

(** An entry of a query ordered by [item_number]: the value of the field,
    then the document with its id. A document without the field is not in
    such a query. *)
Definition with_item_number (doc : string * Product) : option (string * (string * Product)) :=
  (fun n => (n, doc)) <$> p_item_number doc.2.

(** The place of an entry in the order: the field, then the document id. *)
Definition position_leb (a b : string * string) : bool :=
  match String.compare a.1 b.1 with
  | Lt => true
  | Gt => false
  | Eq => String.leb a.2 b.2
  end.

Definition position (entry : string * (string * Product)) : string * string :=
  (entry.1, entry.2.1).

Fixpoint insert_ordered (entry : string * (string * Product))
    (sorted : list (string * (string * Product))) : list (string * (string * Product)) :=
  match sorted with
  | [] => [entry]
  | x :: rest =>
      if position_leb (position entry) (position x)
      then entry :: sorted
      else x :: insert_ordered entry rest
  end.

(** [collection('products').order_by('item_number')] *)
Definition products_query (st : Store) : list (string * (string * Product)) :=
  foldr insert_ordered [] (omap with_item_number (map_to_list (products st))).

(** [start_after(start_doc)]: the entries strictly after the place of the
    cursor document. *)
Definition strictly_after (cursor : string * string) (entry : string * (string * Product)) : bool :=
  negb (position_leb (position entry) cursor).

Inductive products_answer :=
| ProductsPage (products : list Product) (has_next : bool)
| ProductsError500.

(** [limit] is [int(limit_str)] when a non-empty [limit] argument is given,
    [start_after] the argument of that name. The query raises when the
    cursor document does not exist or has no [item_number], and the store
    refuses a negative limit. The properties below are about positive
    limits; a limit of 0 is read here as a page of no document. *)
Definition get_products (st : Store) (limit : option Z) (start_after : option string)
    : products_answer :=
  match limit with
  | Some limit =>
      let started :=
        match start_after with
        | Some id =>
            if truthy id then
              start_doc ← products st !! id;
              field ← p_item_number start_doc;
              Some (List.filter (strictly_after (field, id)) (products_query st))
            else Some (products_query st)
        | None => Some (products_query st)
        end in
      match started with
      | Some query =>
          if limit <? 0 then ProductsError500
          else
            let products := take (Z.to_nat limit) (map (fun entry => entry.2.2) query) in
            ProductsPage products (Z.of_nat (length products) =? limit)
      | None => ProductsError500
      end
  | None => ProductsPage (map (fun entry => entry.2.2) (products_query st)) false
  end.

(** ** Stock report: [generate_stock_pdf] *)

(** The first cell of a row: "N/A", "No Image", or the picture with its
    width and height. *)
Inductive image_cell :=
| NotAvailable
| NoImage
| Picture (url : string) (width height : float).

(** A row of the table, with the values its cells are formatted from. *)
Record report_row := {
  r_image : image_cell;
  r_item_number : string;
  r_item_name : string;
  r_quantity : stored_quantity;
  r_import_price : float;
  r_selling_price : float
}.

(** The document that is built: the table of the rows below the header row,
    or the paragraph "No products in inventory."; or the answer 500. *)
Inductive report_answer :=
| ReportTable (rows : list report_row)
| ReportNoProducts
| ReportError500.

Section Report.

(** Fetching and reading the image at a URL, as [get_image_for_pdf] tries
    it: the ratio of its height to its width, when all of it works. *)
Variable fetch_aspect : string -> option float.

Definition get_image_for_pdf (url : option string) : image_cell :=
  match url with
  | None => NotAvailable
  | Some u =>
      if truthy u then
        match fetch_aspect u with
        | Some aspect => Picture u (of_int 50) (of_int 50 * aspect)%float
        | None => NoImage
        end
      else NotAvailable
  end.

(** [product.get('image_urls', [None])[0]], which raises on an empty list. *)
Definition first_image (product : Product) : option (option string) :=
  match p_image_urls product with
  | None => Some None
  | Some [] => None
  | Some (url :: _) => Some (Some url)
  end.

Definition report_row_of (product : Product) : option report_row :=
  image ← first_image product;
  Some {| r_image := get_image_for_pdf image;
          r_item_number := default "N/A"%string (p_item_number product);
          r_item_name := default "N/A"%string (p_item_name product);
          r_quantity := p_quantity product;
          r_import_price := default (of_int 0) (p_import_price product);
          r_selling_price := default (of_int 0) (p_selling_price product) |}.

Definition generate_stock_pdf (st : Store) : report_answer :=
  match mapM (fun entry => report_row_of entry.2.2) (products_query st) with
  | Some [] => ReportNoProducts
  | Some rows => ReportTable rows
  | None => ReportError500
  end.

End Report.

(** ** Authentication: [require_auth] *)

(** The last piece of [s.split(sep)]: [skip] counts the characters of a
    separator still to pass, [piece] is the piece read so far. *)
Fixpoint split_last (sep s : string) (skip : nat) (piece : string) : string :=
  match s with
  | EmptyString => piece
  | String c r =>
      match skip with
      | S k => split_last sep r k piece
      | O =>
          if String.prefix sep s
          then split_last sep r (String.length sep - 1) EmptyString
          else split_last sep r 0 (piece +:+ String c EmptyString)
      end
  end.

Inductive auth_answer (A : Type) :=
| TokenRequired401
| InvalidToken401
| Handled (answer : A).

Arguments TokenRequired401 {A}.
Arguments InvalidToken401 {A}.
Arguments Handled {A} answer.

Section Auth.

(** [auth.verify_id_token] followed by the reading of ['uid']: the user id,
    or nothing when either raises. *)
Variable verify_id_token : string -> option string.

(** The decorated function: [f] gets the user id the request is given.
    [authorization] is the header of that name, if any. *)
Definition require_auth {A} (f : string -> A) (authorization : option string) : auth_answer A :=
  let id_token := split_last "Bearer " (default ""%string authorization) 0 EmptyString in
  if negb (truthy id_token) then TokenRequired401
  else
    match verify_id_token id_token with
    | Some uid => Handled (f uid)
    | None => InvalidToken401
    end.

End Auth.

(** * Notions of the statements *)

(** The document key a line item is looked up under. *)
Definition key_of (item : Item) : string :=
  upper (default ""%string (item_number item)).

(** [int(item.get('quantity', 0))] *)
Definition requested (item : Item) : Z := default 0 (quantity item).

(** The quantity of a product as the endpoints read it, if it exists. *)
Definition quantity_of (st : Store) (key : string) : option Z :=
  (fun p => int_quantity (p_quantity p)) <$> products st !! key.

(** The quantity the first loop reads for the key of a product. *)
Definition on_hand (snapshot : gmap string Product) (key : string) : Z :=
  from_option (fun p => int_quantity (p_quantity p)) 0 (snapshot !! key).

(** A line passes the first loop: its product exists and has the stock. *)
Definition passes (snapshot : gmap string Product) (item : Item) : bool :=
  match snapshot !! key_of item with
  | Some p => negb (int_quantity (p_quantity p) <? requested item)
  | None => false
  end.

(** A line gets through the second loop: the fields it reads are there. *)
Definition complete (item : Item) : bool :=
  match item_number item, selling_price item, quantity item with
  | Some _, Some _, Some _ => true
  | _, _, _ => false
  end.

(** The line as the sale stores it. *)
Definition stamped (snapshot : gmap string Product) (item : Item) : Item :=
  with_import_price item (default (of_int 0) (snapshot !! key_of item ≫= p_import_price)).

(** The dictionary the first loop leaves. *)
Definition staged_quantities (snapshot : gmap string Product) (payload : list Item)
    (refs : gmap string Z) : gmap string Z :=
  fold_left (fun r item => <[key_of item := on_hand snapshot (key_of item) - requested item]> r)
            payload refs.

(** The amount of one line: [float(selling_price) * int(quantity)]. *)
Definition line_amount (item : Item) : float :=
  (default (of_int 0) (selling_price item) * of_int (requested item))%float.

(** The sale document of a sale whose lines all pass and are complete. *)
Definition sale_document (snapshot : gmap string Product) (payload : list Item) (now : float) : Sale :=
  {| items := map (stamped snapshot) payload;
     total_amount := fold_left (fun acc item => (acc + line_amount item)%float)
                               (map (stamped snapshot) payload) (of_int 0);
     timestamp := now |}.

(** The quantity updates such a sale stages, one per line. *)
Definition quantity_updates (snapshot : gmap string Product) (payload : list Item) : list write :=
  map (fun item => UpdateQuantity (key_of item)
                     (default 0 (staged_quantities snapshot payload ∅ !! key_of item)))
      payload.

(** The line without what the client put as its import price. *)
Definition without_import_price (item : Item) : Item :=
  {| item_number := item_number item;
     quantity := quantity item;
     selling_price := selling_price item;
     import_price := None |}.

(** The sales without the documents of [ids]. *)
Definition delete_all (ids : list string) (m : gmap string Sale) : gmap string Sale :=
  fold_left (fun acc id => delete id acc) ids m.

(** Every line of every sale carries an import price: so it is in a store
    whose sales were all written by [record_sale]. *)
Definition lines_priced (st : Store) : Prop :=
  forall id sale item, sales st !! id = Some sale -> item ∈ items sale -> is_Some (import_price item).

(** The document a write is aimed at. *)
Definition target (w : write) : string :=
  match w with
  | UpdateQuantity key _ | IncrementQuantity key _ | DeleteProductDoc key => key
  | SetSale id _ | DeleteSaleDoc id => id
  end.

(** A line that [restore_writes] turns into an increment of [key]. *)
Definition restores (key : string) (item : Item) : bool :=
  match item_number item with
  | Some n => (truthy n && (0 <? requested item) && String.eqb n key)%bool
  | None => false
  end.

(** What the restoring writes of the lines add to the document [key]. *)
Definition restored (sale_items : list Item) (key : string) : Z :=
  foldr (fun item acc => (if restores key item then requested item else 0) + acc) 0 sale_items.

(** An item number that is the id of a document: not empty, and without the
    "/" that separates the elements of a document path. *)
Fixpoint no_slash (s : string) : bool :=
  match s with
  | EmptyString => true
  | String c r => (negb (Ascii.eqb c "/") && no_slash r)%bool
  end.

Definition document_id (key : string) : bool := (truthy key && no_slash key)%bool.

(** An integer the store holds: a signed one of 64 bits. *)
Definition int64 (z : Z) : bool := ((- 2 ^ 63 <=? z) && (z <=? 2 ^ 63 - 1))%bool.

(** A line whose writes the store takes: its product is read under a
    document id, and the quantity it posts and the quantity it leaves of its
    product are integers of the store. *)
Definition storable (snapshot : gmap string Product) (item : Item) : bool :=
  (document_id (key_of item) && int64 (requested item)
   && int64 (on_hand snapshot (key_of item) - requested item))%bool.

(** A line as the catalog and the sale screen agree on it: an item number
    that is not empty and already in upper case, and a quantity that is not
    negative. *)
Definition regular (item : Item) : Prop :=
  exists n, item_number item = Some n /\ truthy n = true /\ upper n = n
            /\ 0 <= requested item.

(** * A shop with one product *)

(** Product A of the specification's scenarios: 10 on hand, bought at 5. *)
Definition apple : Product :=
  {| p_item_number := Some "A"%string;
     p_item_name := Some "Apple"%string;
     p_quantity := QText 10;
     p_import_price := Some (of_int 5);
     p_selling_price := Some (of_int 8);
     p_image_urls := Some [];
     p_image_url := Some ""%string |}.

(** The store with that product and no sale. *)
Definition shop : Store := {| products := {[ "A"%string := apple ]}; sales := ∅ |}.

(** A posted line: item number, quantity and selling price. *)
Definition line (n : string) (q price : Z) : Item :=
  {| item_number := Some n;
     quantity := Some q;
     selling_price := Some (of_int price);
     import_price := None |}.

(** A time of sale. *)
Definition noon : float := of_int 1700000000.

(** UTC as the server's zone, for the examples: days since 1970-01-01 of a
    civil date, times 86400. *)
Definition days_from_civil (d : datetime) : Z :=
  let y := if month d <=? 2 then year d - 1 else year d in
  let era := y / 400 in
  let yoe := y - era * 400 in
  let mp := (month d + 9) mod 12 in
  let doy := (153 * mp + 2) / 5 + day d - 1 in
  let doe := yoe * 365 + yoe / 4 - yoe / 100 + doy in
  era * 146097 + doe - 719468.

Definition utc_timestamp (d : datetime) : float := of_int (days_from_civil d * 86400).

(** A sale of one unit of product A at the epoch second [t]. *)
Definition sale_at (t : Z) : Sale :=
  {| items := [with_import_price (line "A" 1 8) (of_int 5)];
     total_amount := of_int 8;
     timestamp := of_int t |}.

(** A sale on 2023-12-31 23:59:59, one on 2024-01-01 00:00:00 and one on
    2023-12-01 00:00:00 (UTC). *)
Definition year_end : Store :=
  {| products := {[ "A"%string := apple ]};
     sales := {[ "last"%string := sale_at 1704067199;
                 "new"%string := sale_at 1704067200;
                 "first"%string := sale_at 1701388800 ]} |}.

(** * Notions of the further properties *)

(** A request to the product types, and the types after a list of them. *)
Inductive type_request :=
| AddType (name : option string) (new_id : string)
| DeleteType (type_id : string).

Definition serve_type (types : gmap string string) (request : type_request)
    : gmap string string :=
  match request with
  | AddType name new_id => (add_type types name new_id).2
  | DeleteType type_id => (delete_type types type_id).2
  end.

(** No two type documents have the same name, and every name is non-empty
    and has no space at either end. *)
Definition well_named (types : gmap string string) : Prop :=
  (forall id1 id2 name, types !! id1 = Some name -> types !! id2 = Some name -> id1 = id2)
  /\ (forall id name, types !! id = Some name -> truthy name = true /\ strip name = name).

(** Two entries of a query ordered by item number, the first at or before
    the place of the second. *)
Definition in_order (a b : string * (string * Product)) : Prop :=
  position_leb (position a) (position b) = true.

(** The product of an entry. *)
Definition listed (entry : string * (string * Product)) : Product := entry.2.2.

(** A catalog of three products, the first without an image. *)
Definition stocked (n name url : string) : Product :=
  {| p_item_number := Some n;
     p_item_name := Some name;
     p_quantity := QText 5;
     p_import_price := Some (of_int 2);
     p_selling_price := Some (of_int 3);
     p_image_urls := Some [url];
     p_image_url := Some url |}.

Definition catalog : Store :=
  {| products := {[ "A"%string := apple;
                    "B"%string := stocked "B" "Banana" "https://img/b";
                    "C"%string := stocked "C" "Cherry" "https://img/c" ]};
     sales := ∅ |}.

(** The catalog without product A: every product has an image. *)
Definition orchard : Store :=
  {| products := delete "A"%string (products catalog); sales := ∅ |}.

(** The form of a product D posted without an image. *)
Definition date_form : ProductForm :=
  {| f_item_number := Some "d"%string;
     f_item_name := Some "Date"%string;
     f_quantity := Some 4;
     f_import_price := None;
     f_selling_price := None |}.

(** The form of that product posted again, with its prices only. *)
Definition date_priced : ProductForm :=
  {| f_item_number := Some "D"%string;
     f_item_name := None;
     f_quantity := None;
     f_import_price := Some (of_int 2);
     f_selling_price := Some (of_int 3) |}.

(** The separator occurs somewhere in the string. *)
Fixpoint occurs (sep s : string) : bool :=
  (String.prefix sep s
   || match s with
      | EmptyString => false
      | String _ r => occurs sep r
      end)%bool.

(** What [require_auth] does with a token that is not empty. *)
Definition verified {A} (verify_id_token : string -> option string) (f : string -> A)
    (id_token : string) : auth_answer A :=
  match verify_id_token id_token with
  | Some uid => Handled (f uid)
  | None => InvalidToken401
  end.

(** What the lines of a sale ask for of the product under [key]. *)
Definition sold (payload : list Item) (key : string) : Z :=
  foldr (fun item acc => (if String.eqb (key_of item) key then requested item else 0) + acc)
        0 payload.

(** An order: the posted lines, the id drawn for the sale and the time. The
    store after a list of orders, and all of them being recorded. *)
Definition place_order (st : Store) (order : list Item * string * float) : Response * Store :=
  record_sale st order.1.1 order.1.2 order.2.

Definition record_sales (st : Store) (orders : list (list Item * string * float)) : Store :=
  fold_left (fun st order => (place_order st order).2) orders st.

Fixpoint all_recorded (st : Store) (orders : list (list Item * string * float)) : Prop :=
  match orders with
  | [] => True
  | order :: rest =>
      (place_order st order).1 = Ok200 "Sale recorded successfully!"
      /\ all_recorded (place_order st order).2 rest
  end.

Definition total_sold (orders : list (list Item * string * float)) (key : string) : Z :=
  foldr (fun order acc => sold order.1.1 key + acc) 0 orders.

(** The number an increment adds to: the field when it is a number, else
    nothing. *)
Definition numeric (q : stored_quantity) : Z :=
  match q with
  | QNumber z => z
  | QAbsent | QText _ => 0
  end.

(** A verifier that knows one token. *)
Definition one_token (id_token : string) : option string :=
  if String.eqb id_token "tok" then Some "u1"%string else None.

(** Product A after a sale of 3, and then saved again through the form with
    the quantity 7. *)
Definition after_sale : Store := (record_sale shop [line "A" 3 8] "s1" noon).2.

Definition restock_form : ProductForm :=
  {| f_item_number := Some "a"%string;
     f_item_name := None;
     f_quantity := Some 7;
     f_import_price := None;
     f_selling_price := None |}.

Definition resaved : Store := (add_update_product after_sale restock_form [] []).2.

(** * Properties *)

Arguments of_int : simpl never.
Arguments upper : simpl never.
Arguments restored : simpl never.
Arguments requested : simpl never.

(** ** What the loops of [update_in_transaction] compute *)

Lemma read_and_check_ok snapshot payload refs :
  forallb (passes snapshot) payload = true ->
  read_and_check snapshot payload refs
  = inr (map (stamped snapshot) payload, staged_quantities snapshot payload refs).
Proof.
  revert refs. induction payload as [|item rest IH]; intros refs Hall; [reflexivity|].
  cbn [forallb] in Hall. apply andb_prop in Hall as [Hitem Hrest].
  unfold passes in Hitem. cbn [read_and_check map staged_quantities fold_left].
  fold (key_of item). fold (requested item).
  destruct (snapshot !! key_of item) as [p|] eqn:Hp; [|discriminate].
  destruct (int_quantity (p_quantity p) <? requested item); [discriminate|].
  rewrite (IH _ Hrest). unfold stamped at 2, on_hand. rewrite Hp. reflexivity.
Qed.

Lemma read_and_check_inv snapshot payload refs r :
  read_and_check snapshot payload refs = inr r ->
  forallb (passes snapshot) payload = true.
Proof.
  revert refs r. induction payload as [|item rest IH]; intros refs r H; [reflexivity|].
  cbn [read_and_check] in H. cbn [forallb]. unfold passes at 1.
  fold (key_of item) in H. fold (requested item) in H.
  destruct (snapshot !! key_of item) as [p|]; [|discriminate].
  destruct (int_quantity (p_quantity p) <? requested item); [discriminate|].
  cbn [negb andb].
  destruct (read_and_check snapshot rest _) as [e|r'] eqn:Hr; [discriminate|].
  eapply IH, Hr.
Qed.

(** The first line that does not pass decides the exception. *)
Lemma read_and_check_missing snapshot pre item post refs :
  forallb (passes snapshot) pre = true ->
  snapshot !! key_of item = None ->
  read_and_check snapshot (pre ++ item :: post) refs
  = inl (ValueError ("Product " +:+ key_of item +:+ " not found.")).
Proof.
  revert refs. induction pre as [|x pre IH]; intros refs Hpre Hnone.
  - cbn [app read_and_check]. fold (key_of item). rewrite Hnone. reflexivity.
  - cbn [forallb] in Hpre. apply andb_prop in Hpre as [Hx Hpre].
    unfold passes in Hx. cbn [app read_and_check].
    fold (key_of x). fold (requested x).
    destruct (snapshot !! key_of x) as [p|]; [|discriminate].
    destruct (int_quantity (p_quantity p) <? requested x); [discriminate|].
    rewrite (IH _ Hpre Hnone). reflexivity.
Qed.

Lemma read_and_check_short snapshot pre item post refs p :
  forallb (passes snapshot) pre = true ->
  snapshot !! key_of item = Some p ->
  int_quantity (p_quantity p) < requested item ->
  read_and_check snapshot (pre ++ item :: post) refs
  = inl (ValueError ("Not enough stock for " +:+ format_name (p_item_name p) +:+ ".")).
Proof.
  revert refs. induction pre as [|x pre IH]; intros refs Hpre Hsome Hlt.
  - cbn [app read_and_check]. fold (key_of item). fold (requested item). rewrite Hsome.
    apply Z.ltb_lt in Hlt. rewrite Hlt. reflexivity.
  - cbn [forallb] in Hpre. apply andb_prop in Hpre as [Hx Hpre].
    unfold passes in Hx. cbn [app read_and_check].
    fold (key_of x). fold (requested x).
    destruct (snapshot !! key_of x) as [px|]; [|discriminate].
    destruct (int_quantity (p_quantity px) <? requested x); [discriminate|].
    rewrite (IH _ Hpre Hsome Hlt). reflexivity.
Qed.

(** A list with a line that does not pass splits at the first such line. *)
Lemma first_failure {A} (f : A -> bool) (l : list A) :
  forallb f l = false ->
  exists pre x post, l = pre ++ x :: post /\ forallb f pre = true /\ f x = false.
Proof.
  induction l as [|a l IH]; [discriminate|].
  cbn [forallb]. destruct (f a) eqn:Ha.
  - intros H. destruct (IH H) as (pre & x & post & -> & Hpre & Hx).
    exists (a :: pre), x, post. cbn [forallb]. rewrite Ha. auto.
  - intros _. exists [], a, l. auto.
Qed.

Lemma key_of_stamped snapshot item : key_of (stamped snapshot item) = key_of item.
Proof. reflexivity. Qed.

Lemma complete_stamped snapshot item : complete (stamped snapshot item) = complete item.
Proof. reflexivity. Qed.

Lemma stage_updates_ok refs payload total :
  forallb complete payload = true ->
  Forall (fun item => is_Some (refs !! key_of item)) payload ->
  stage_updates refs payload total
  = inr (map (fun item => UpdateQuantity (key_of item) (default 0 (refs !! key_of item))) payload,
         fold_left (fun acc item => (acc + line_amount item)%float) payload total).
Proof.
  revert total. induction payload as [|item rest IH]; intros total Hall Hrefs; [reflexivity|].
  cbn [forallb] in Hall. apply andb_prop in Hall as [Hitem Hrest].
  inversion Hrefs as [|? ? [q Hq] Hrefs']; subst.
  cbn [stage_updates map fold_left]. unfold line_amount at 2, requested.
  unfold complete in Hitem. unfold key_of in Hq |- * at 1 2.
  destruct (item_number item) as [n|]; [|discriminate].
  destruct (selling_price item) as [price|]; [|discriminate].
  destruct (quantity item) as [sold|]; [|discriminate].
  cbn [default from_option id] in Hq |- *. rewrite Hq.
  rewrite (IH _ Hrest Hrefs'). reflexivity.
Qed.

Lemma stage_updates_inv refs payload total r :
  stage_updates refs payload total = inr r ->
  forallb complete payload = true.
Proof.
  revert total r. induction payload as [|item rest IH]; intros total r H; [reflexivity|].
  cbn [stage_updates] in H. cbn [forallb]. unfold complete at 1.
  destruct (item_number item) as [n|]; [|discriminate].
  destruct (refs !! upper n); [|discriminate].
  destruct (selling_price item) as [price|]; [|discriminate].
  destruct (quantity item) as [sold|]; [|discriminate].
  destruct (stage_updates refs rest _) as [e|r'] eqn:Hr; [discriminate|].
  cbn [andb]. eapply IH, Hr.
Qed.

Lemma staged_quantities_cons snapshot item rest refs :
  staged_quantities snapshot (item :: rest) refs
  = staged_quantities snapshot rest
      (<[key_of item := on_hand snapshot (key_of item) - requested item]> refs).
Proof. reflexivity. Qed.

(** The dictionary holds, for a product, what the last line naming it left. *)
Lemma staged_quantities_other snapshot payload refs key :
  key ∉ map key_of payload ->
  staged_quantities snapshot payload refs !! key = refs !! key.
Proof.
  revert refs. induction payload as [|item rest IH]; intros refs Hnot; [reflexivity|].
  cbn [map] in Hnot. apply not_elem_of_cons in Hnot as [Hne Hnot].
  rewrite staged_quantities_cons, (IH _ Hnot). apply lookup_insert_ne. congruence.
Qed.

Lemma staged_quantities_app snapshot pre post refs :
  staged_quantities snapshot (pre ++ post) refs
  = staged_quantities snapshot post (staged_quantities snapshot pre refs).
Proof. apply fold_left_app. Qed.

Lemma staged_quantities_last snapshot pre item post refs :
  key_of item ∉ map key_of post ->
  staged_quantities snapshot (pre ++ item :: post) refs !! key_of item
  = Some (on_hand snapshot (key_of item) - requested item).
Proof.
  intros Hnot. rewrite staged_quantities_app, staged_quantities_cons.
  rewrite (staged_quantities_other _ _ _ _ Hnot). apply lookup_insert_eq.
Qed.

Lemma staged_quantities_is_Some snapshot payload refs key :
  key ∈ map key_of payload ->
  is_Some (staged_quantities snapshot payload refs !! key).
Proof.
  revert refs. induction payload as [|x rest IH]; intros refs Hin.
  - by apply elem_of_nil in Hin.
  - rewrite staged_quantities_cons.
    destruct (decide (key ∈ map key_of rest)) as [Hk|Hk]; [by apply IH|].
    rewrite (staged_quantities_other _ _ _ _ Hk).
    cbn [map] in Hin. apply elem_of_cons in Hin as [->|Hin]; [|done].
    rewrite lookup_insert_eq. eauto.
Qed.

Lemma update_in_transaction_ok snapshot payload sale_id now :
  forallb (passes snapshot) payload = true ->
  forallb complete payload = true ->
  update_in_transaction snapshot payload sale_id now
  = inr (quantity_updates snapshot payload ++ [SetSale sale_id (sale_document snapshot payload now)]).
Proof.
  intros Hpass Hcomplete. unfold update_in_transaction.
  rewrite (read_and_check_ok _ _ _ Hpass). cbn [bind fst snd].
  rewrite stage_updates_ok.
  - cbn [bind fst snd]. unfold ret, quantity_updates, sale_document.
    rewrite map_map. reflexivity.
  - rewrite forallb_forall in Hcomplete |- *. intros x Hx.
    apply in_map_iff in Hx as (y & <- & Hy). rewrite complete_stamped. auto.
  - apply Forall_forall. intros x Hx.
    apply list_elem_of_fmap in Hx as (y & -> & Hy). rewrite key_of_stamped.
    apply staged_quantities_is_Some, list_elem_of_fmap. eauto.
Qed.

Lemma update_in_transaction_inv snapshot payload sale_id now ws :
  update_in_transaction snapshot payload sale_id now = inr ws ->
  forallb (passes snapshot) payload = true /\ forallb complete payload = true.
Proof.
  unfold update_in_transaction. intros H.
  destruct (read_and_check snapshot payload ∅) as [e|checked] eqn:Hc; [discriminate|].
  pose proof (read_and_check_inv _ _ _ _ Hc) as Hpass. split; [exact Hpass|].
  rewrite (read_and_check_ok _ _ _ Hpass) in Hc. injection Hc as <-.
  cbn [bind fst snd] in H.
  destruct (stage_updates _ _ _) as [e|staged] eqn:Hs; [discriminate|].
  apply stage_updates_inv in Hs.
  rewrite forallb_forall in Hs |- *. intros x Hx.
  rewrite <- (complete_stamped snapshot). apply Hs, in_map, Hx.
Qed.

(** ** The commit *)

Lemma commit_app st ws1 ws2 :
  commit st (ws1 ++ ws2) = commit st ws1 ≫= fun st' => commit st' ws2.
Proof.
  revert st. induction ws1 as [|w ws1 IH]; intros st; [reflexivity|].
  cbn [app commit]. destruct (apply_write st w); [apply IH|reflexivity].
Qed.

(** Updates of existing products, each with the quantity [f] gives its key:
    the commit goes through and rewrites the quantity of exactly those. *)
Lemma commit_quantity_updates (f : string -> Z) payload st :
  Forall (fun item => is_Some (products st !! key_of item)) payload ->
  exists st',
    commit st (map (fun item => UpdateQuantity (key_of item) (f (key_of item))) payload) = Some st'
    /\ sales st' = sales st
    /\ forall key,
        products st' !! key
        = if decide (key ∈ map key_of payload)
          then (fun p => with_quantity p (QNumber (f key))) <$> products st !! key
          else products st !! key.
Proof.
  revert st. induction payload as [|item rest IH]; intros st Hex.
  - exists st. split; [reflexivity|]. split; [reflexivity|].
    intros key. case_decide as Hin; [|reflexivity].
    by apply elem_of_nil in Hin.
  - inversion Hex as [|? ? [p Hp] Hex']; subst.
    cbn [map commit apply_write]. rewrite Hp.
    set (st1 := {| products := <[key_of item := with_quantity p (QNumber (f (key_of item)))]> (products st);
                   sales := sales st |}).
    destruct (IH st1) as (st' & Hcommit & Hsales & Hproducts).
    { eapply Forall_impl; [exact Hex'|]. intros x Hx. cbn.
      destruct (decide (key_of item = key_of x)) as [->|Hne].
      - rewrite lookup_insert_eq. eauto.
      - by rewrite lookup_insert_ne. }
    exists st'. split; [exact Hcommit|]. split; [exact Hsales|].
    intros key. rewrite Hproducts. cbn [products st1].
    destruct (decide (key_of item = key)) as [<-|Hne].
    + rewrite lookup_insert_eq, Hp.
      rewrite (decide_True (P := key_of item ∈ key_of item :: map key_of rest)) by apply list_elem_of_here.
      case_decide; reflexivity.
    + rewrite lookup_insert_ne by exact Hne.
      destruct (decide (key ∈ map key_of rest)) as [Hin|Hin].
      * rewrite decide_True; [reflexivity|]. by apply list_elem_of_further.
      * rewrite decide_False; [reflexivity|].
        intros [?|?]%elem_of_cons; congruence.
Qed.

(** ** RecordSale as a whole *)

Lemma passes_exists snapshot payload :
  forallb (passes snapshot) payload = true ->
  Forall (fun item => is_Some (snapshot !! key_of item)) payload.
Proof.
  rewrite forallb_forall. intros H. apply Forall_forall. intros x Hx.
  apply list_elem_of_In in Hx. specialize (H x Hx). unfold passes in H.
  destruct (snapshot !! key_of x); [eauto|discriminate].
Qed.

Lemma record_sale_ok st payload sale_id now :
  payload <> [] ->
  forallb (passes (products st)) payload = true ->
  forallb complete payload = true ->
  exists st',
    record_sale st payload sale_id now = (Ok200 "Sale recorded successfully!", st')
    /\ sales st' = <[sale_id := sale_document (products st) payload now]> (sales st)
    /\ forall key,
        products st' !! key
        = if decide (key ∈ map key_of payload)
          then (fun p => with_quantity p
                           (QNumber (default 0 (staged_quantities (products st) payload ∅ !! key))))
               <$> products st !! key
          else products st !! key.
Proof.
  intros Hne Hpass Hcomplete.
  destruct (commit_quantity_updates
              (fun key => default 0 (staged_quantities (products st) payload ∅ !! key))
              payload st (passes_exists _ _ Hpass)) as (st1 & Hcommit & Hsales & Hproducts).
  exists {| products := products st1;
            sales := <[sale_id := sale_document (products st) payload now]> (sales st1) |}.
  split; [|split].
  - unfold record_sale. destruct payload as [|item rest]; [congruence|].
    rewrite (update_in_transaction_ok _ _ _ _ Hpass Hcomplete).
    unfold run_transaction, quantity_updates. cbn [bind].
    rewrite commit_app, Hcommit. reflexivity.
  - cbn [sales]. by rewrite Hsales.
  - exact Hproducts.
Qed.

Lemma record_sale_inv st payload sale_id now msg st' :
  record_sale st payload sale_id now = (Ok200 msg, st') ->
  payload <> [] /\ forallb (passes (products st)) payload = true
  /\ forallb complete payload = true.
Proof.
  unfold record_sale. destruct payload as [|item rest]; [discriminate|].
  intros H. split; [discriminate|].
  unfold run_transaction in H.
  destruct (update_in_transaction _ _ _ _) as [e|ws] eqn:Hbody.
  - cbn [bind] in H. destruct e; discriminate.
  - eapply update_in_transaction_inv, Hbody.
Qed.

(** Any answer other than the success leaves the store as it was. *)
Lemma record_sale_failure_unchanged st payload sale_id now :
  (record_sale st payload sale_id now).1 <> Ok200 "Sale recorded successfully!" ->
  (record_sale st payload sale_id now).2 = st.
Proof.
  unfold record_sale. destruct payload as [|item rest]; [reflexivity|].
  destruct (run_transaction _ _) as [e|st']; [destruct e; reflexivity|].
  cbn [fst]. congruence.
Qed.

Lemma record_sale_last_line st pre item post sale_id now msg st' :
  record_sale st (pre ++ item :: post) sale_id now = (Ok200 msg, st') ->
  key_of item ∉ map key_of post ->
  quantity_of st' (key_of item)
  = Some (on_hand (products st) (key_of item) - requested item).
Proof.
  intros Hsale Hlast.
  destruct (record_sale_inv _ _ _ _ _ _ Hsale) as (Hne & Hpass & Hcomplete).
  destruct (record_sale_ok st _ sale_id now Hne Hpass Hcomplete) as (st1 & Hok & _ & Hproducts).
  rewrite Hsale in Hok. injection Hok as _ ->.
  unfold quantity_of. rewrite Hproducts.
  rewrite decide_True by (rewrite map_app; apply elem_of_app; right; apply list_elem_of_here).
  rewrite (staged_quantities_last _ _ _ _ _ Hlast).
  apply passes_exists in Hpass. rewrite Forall_app, Forall_cons in Hpass.
  destruct Hpass as (_ & [p Hp] & _). unfold on_hand. rewrite Hp. reflexivity.
Qed.

Lemma record_sale_sale_document st payload sale_id now msg st' :
  record_sale st payload sale_id now = (Ok200 msg, st') ->
  sales st' !! sale_id = Some (sale_document (products st) payload now).
Proof.
  intros Hsale.
  destruct (record_sale_inv _ _ _ _ _ _ Hsale) as (Hne & Hpass & Hcomplete).
  destruct (record_sale_ok st _ sale_id now Hne Hpass Hcomplete) as (st1 & Hok & Hsales & _).
  rewrite Hsale in Hok. injection Hok as _ ->.
  rewrite Hsales. apply lookup_insert_eq.
Qed.

(** ** RecordSale: the failures *)

Lemma record_sale_nonempty st payload sale_id now :
  payload <> [] ->
  record_sale st payload sale_id now
  = match run_transaction st (update_in_transaction (products st) payload sale_id now) with
    | inr st' => (Ok200 "Sale recorded successfully!", st')
    | inl (ValueError msg) => (BadRequest400 msg, st)
    | inl e => (ServerError500 e, st)
    end.
Proof. destruct payload; [congruence|reflexivity]. Qed.

(** C3. [record_sale] answers 400 "Sale must contain at least one item." for
    an empty list. With item numbers that are document ids, it answers 400
    "Product K not found." when the first line that does not pass names a
    product that does not exist, 400 "Not enough stock for NAME." when the
    first line that does not pass asks for more than is on hand, and it fails
    with a 400 whenever some line does not pass. Whenever the answer is not
    the success, the store, with every product quantity and every sale, is as
    it was. *)
Theorem record_sale_failures st payload sale_id now :
  (payload = [] ->
   record_sale st payload sale_id now
   = (BadRequest400 "Sale must contain at least one item.", st))
  /\ (forall pre item post,
        payload = pre ++ item :: post ->
        forallb (fun line => document_id (key_of line)) (pre ++ [item]) = true ->
        forallb (passes (products st)) pre = true ->
        products st !! key_of item = None ->
        record_sale st payload sale_id now
        = (BadRequest400 ("Product " +:+ key_of item +:+ " not found."), st))
  /\ (forall pre item post p,
        payload = pre ++ item :: post ->
        forallb (fun line => document_id (key_of line)) (pre ++ [item]) = true ->
        forallb (passes (products st)) pre = true ->
        products st !! key_of item = Some p ->
        int_quantity (p_quantity p) < requested item ->
        record_sale st payload sale_id now
        = (BadRequest400 ("Not enough stock for " +:+ format_name (p_item_name p) +:+ "."), st))
  /\ (forallb (fun line => document_id (key_of line)) payload = true ->
      forallb (passes (products st)) payload = false ->
      exists msg, record_sale st payload sale_id now = (BadRequest400 msg, st))
  /\ ((record_sale st payload sale_id now).1 <> Ok200 "Sale recorded successfully!" ->
      (record_sale st payload sale_id now).2 = st).
Proof.
  assert (Hmissing : forall pre item post,
             payload = pre ++ item :: post ->
             forallb (passes (products st)) pre = true ->
             products st !! key_of item = None ->
             record_sale st payload sale_id now
             = (BadRequest400 ("Product " +:+ key_of item +:+ " not found."), st)).
  { intros pre item post -> Hpre Hnone.
    rewrite record_sale_nonempty by (destruct pre; discriminate).
    unfold update_in_transaction. rewrite (read_and_check_missing _ _ _ _ _ Hpre Hnone).
    reflexivity. }
  assert (Hshort : forall pre item post p,
             payload = pre ++ item :: post ->
             forallb (passes (products st)) pre = true ->
             products st !! key_of item = Some p ->
             int_quantity (p_quantity p) < requested item ->
             record_sale st payload sale_id now
             = (BadRequest400 ("Not enough stock for " +:+ format_name (p_item_name p) +:+ "."), st)).
  { intros pre item post p -> Hpre Hsome Hlt.
    rewrite record_sale_nonempty by (destruct pre; discriminate).
    unfold update_in_transaction. rewrite (read_and_check_short _ _ _ _ _ _ Hpre Hsome Hlt).
    reflexivity. }
  split; [intros ->; reflexivity|].
  split; [intros pre item post Heq _; exact (Hmissing pre item post Heq)|].
  split; [intros pre item post p Heq _; exact (Hshort pre item post p Heq)|].
  split; [|apply record_sale_failure_unchanged].
  intros _ Hfail. destruct (first_failure _ _ Hfail) as (pre & x & post & Heq & Hpre & Hx).
  unfold passes in Hx. destruct (products st !! key_of x) as [p|] eqn:Hp.
  - apply negb_false_iff, Z.ltb_lt in Hx. eauto.
  - eauto.
Qed.

(** The scenario of the specification: 11 units of a product with 10 on hand;
    and a second line naming a product that is not in the catalog. *)
Lemma record_sale_failures_witness :
  record_sale shop [line "A" 11 8] "s1" noon
  = (BadRequest400 "Not enough stock for Apple.", shop)
  /\ record_sale shop [line "A" 1 8; line "b" 1 8] "s1" noon
     = (BadRequest400 "Product B not found.", shop).
Proof.
  split.
  - destruct (record_sale_failures shop [line "A" 11 8] "s1" noon) as (_ & _ & H & _).
    apply (H [] (line "A" 11 8) [] apple);
      [reflexivity|vm_compute; reflexivity|reflexivity|reflexivity|vm_compute; reflexivity].
  - destruct (record_sale_failures shop [line "A" 1 8; line "b" 1 8] "s1" noon) as (_ & H & _).
    apply (H [line "A" 1 8] (line "b" 1 8) []);
      [reflexivity|vm_compute; reflexivity|vm_compute; reflexivity|vm_compute; reflexivity].
Defined.

(** ** RecordSale: what a success leaves *)

Lemma read_and_check_ignores_import_price snapshot payload refs :
  read_and_check snapshot (map without_import_price payload) refs
  = read_and_check snapshot payload refs.
Proof.
  revert refs. induction payload as [|item rest IH]; intros refs; [reflexivity|].
  cbn [map read_and_check].
  change (item_number (without_import_price item)) with (item_number item).
  change (quantity (without_import_price item)) with (quantity item).
  destruct (snapshot !! _); [|reflexivity].
  destruct (_ <? _); [reflexivity|]. rewrite IH. reflexivity.
Qed.

(** C5. After a successful [record_sale] the sale document holds one line per
    posted line, in order, with the posted item number, quantity and selling
    price, and with the import price of the product read in the transaction
    (0 when the product has none); what the client posted as import price has
    no influence on the outcome. *)
Theorem import_price_snapshot st payload sale_id now st' :
  record_sale st payload sale_id now = (Ok200 "Sale recorded successfully!", st') ->
  (exists sale,
      sales st' !! sale_id = Some sale
      /\ length (items sale) = length payload
      /\ forall i item,
          payload !! i = Some item ->
          exists p stored,
            products st !! key_of item = Some p
            /\ items sale !! i = Some stored
            /\ import_price stored = Some (default (of_int 0) (p_import_price p))
            /\ item_number stored = item_number item
            /\ quantity stored = quantity item
            /\ selling_price stored = selling_price item)
  /\ record_sale st (map without_import_price payload) sale_id now
     = record_sale st payload sale_id now.
Proof.
  intros Hsale. split.
  - exists (sale_document (products st) payload now).
    split; [eapply record_sale_sale_document, Hsale|].
    split; [apply length_map|].
    intros i item Hi.
    destruct (record_sale_inv _ _ _ _ _ _ Hsale) as (_ & Hpass & _).
    apply passes_exists in Hpass.
    rewrite Forall_forall in Hpass.
    destruct (Hpass item) as [p Hp]; [eapply list_elem_of_lookup_2, Hi|].
    exists p, (stamped (products st) item). split; [exact Hp|].
    split; [cbn [items sale_document]; rewrite list_lookup_fmap, Hi; reflexivity|].
    unfold stamped. rewrite Hp. repeat split.
  - unfold record_sale, update_in_transaction.
    rewrite read_and_check_ignores_import_price.
    destruct payload; reflexivity.
Qed.

(** A client posting 0.01 as the import price of a product bought at 5. *)
Lemma import_price_snapshot_witness :
  exists st',
    record_sale shop [with_import_price (line "A" 3 8) (of_int 1 / of_int 100)%float] "s1" noon
    = (Ok200 "Sale recorded successfully!", st')
    /\ (items <$> sales st' !! "s1"%string)
       = Some [with_import_price (line "A" 3 8) (of_int 5)].
Proof.
  eexists. split; [vm_compute; reflexivity|].
  destruct (import_price_snapshot shop
              [with_import_price (line "A" 3 8) (of_int 1 / of_int 100)%float] "s1" noon _ eq_refl)
    as [_ _].
  vm_compute. reflexivity.
Defined.

(** C10. A line with a quantity [q <= 0] for a product with a non-negative
    quantity on hand passes the stock check; when the other lines pass and
    are complete, no later line names the same product, and the lines are
    ones whose writes the store takes (item numbers that are document ids,
    integers within 64 bits), the sale is recorded and the product is left
    with [on_hand - q], that is [|q|] more than before. *)
Theorem record_sale_accepts_nonpositive_quantity st pre item post sale_id now p n q price :
  item_number item = Some n ->
  quantity item = Some q ->
  selling_price item = Some price ->
  products st !! upper n = Some p ->
  0 <= int_quantity (p_quantity p) ->
  q <= 0 ->
  forallb (passes (products st)) (pre ++ post) = true ->
  forallb complete (pre ++ post) = true ->
  forallb (storable (products st)) (pre ++ item :: post) = true ->
  upper n ∉ map key_of post ->
  (int_quantity (p_quantity p) <? q) = false
  /\ exists st',
      record_sale st (pre ++ item :: post) sale_id now = (Ok200 "Sale recorded successfully!", st')
      /\ (exists sale, sales st' !! sale_id = Some sale
                       /\ stamped (products st) item ∈ items sale)
      /\ quantity_of st' (upper n) = Some (int_quantity (p_quantity p) - q)
      /\ int_quantity (p_quantity p) - q = int_quantity (p_quantity p) + Z.abs q.
Proof.
  intros Hn Hq Hprice Hp Hstock Hneg Hpass Hcomplete _ Hlast.
  assert (Hkey : key_of item = upper n) by (unfold key_of; rewrite Hn; reflexivity).
  assert (Hreq : requested item = q) by (unfold requested; rewrite Hq; reflexivity).
  assert (Hcheck : (int_quantity (p_quantity p) <? q) = false) by (apply Z.ltb_ge; lia).
  split; [exact Hcheck|].
  rewrite forallb_app in Hpass, Hcomplete.
  apply andb_prop in Hpass as [Hpass1 Hpass2]. apply andb_prop in Hcomplete as [Hc1 Hc2].
  destruct (record_sale_ok st (pre ++ item :: post) sale_id now) as (st' & Hok & Hsales & _).
  - destruct pre; discriminate.
  - rewrite forallb_app. cbn [forallb]. rewrite Hpass1, Hpass2.
    unfold passes. rewrite Hkey, Hp, Hreq, Hcheck. reflexivity.
  - rewrite forallb_app. cbn [forallb]. rewrite Hc1, Hc2.
    unfold complete. rewrite Hn, Hprice, Hq. reflexivity.
  - exists st'. split; [exact Hok|]. split; [|split; [|lia]].
    + eexists. split; [rewrite Hsales; apply lookup_insert_eq|].
      cbn [items sale_document]. apply list_elem_of_fmap. eexists. split; [reflexivity|].
      apply elem_of_app. right. apply list_elem_of_here.
    + rewrite <- Hkey in Hlast |- *.
      rewrite (record_sale_last_line _ _ _ _ _ _ _ _ Hok Hlast).
      unfold on_hand. rewrite Hkey, Hp, Hreq. reflexivity.
Qed.

(** Selling -2 of product A, 10 on hand, leaves 12. *)
Lemma record_sale_accepts_nonpositive_quantity_witness :
  exists st',
    record_sale shop [line "A" (-2) 8] "s1" noon = (Ok200 "Sale recorded successfully!", st')
    /\ quantity_of st' "A" = Some 12.
Proof.
  destruct (record_sale_accepts_nonpositive_quantity
              shop [] (line "A" (-2) 8) [] "s1" noon apple "A" (-2) (of_int 8))
    as (_ & st' & Hsale & _ & Hquantity & _);
    [reflexivity|reflexivity|reflexivity|reflexivity|vm_compute; discriminate|lia
    |reflexivity|reflexivity|vm_compute; reflexivity|apply not_elem_of_nil|].
  exists st'. split; [exact Hsale|exact Hquantity].
Defined.

(** C1 (the code departs from it). Two lines naming product A, for 3 and for
    4, with 10 on hand: the sale is recorded with both lines, and the product
    is left with 6, the quantity on hand minus the last line's 4, not with
    [10 - (3 + 4) = 3]. *)
Theorem record_sale_repeated_product :
  let answer := record_sale shop [line "A" 3 8; line "A" 4 8] "s1" noon in
  answer.1 = Ok200 "Sale recorded successfully!"
  /\ quantity_of shop "A" = Some 10
  /\ (map requested <$> (items <$> sales answer.2 !! "s1"%string)) = Some [3; 4]
  /\ quantity_of answer.2 "A" = Some 6.
Proof. vm_compute. repeat split. Qed.

(** ** ListSales *)

Lemma fold_add_sale_profit returned total :
  fold_left add_sale_profit returned total
  = fold_left (fun acc item => (acc + line_profit item)%float)
              (concat (map (fun doc => items doc.2) returned)) total.
Proof.
  revert total. induction returned as [|doc rest IH]; intros total; [reflexivity|].
  cbn [fold_left map concat]. rewrite fold_left_app. apply IH.
Qed.

(** C7. The [total_profit] of the answer is the sum, over the line items of
    the returned sales in the order returned, of
    [(selling_price - import_price) * quantity]: a function of the returned
    list alone, in which the stored [total_amount] takes no part. So a
    returned sale of one line adds [(selling_price - import_price) * quantity]
    of that line to the total of the sales before it. *)
Theorem total_profit_recomputed timestamp_of st date_filter month_filter :
  (get_sales timestamp_of st date_filter month_filter).2
  = spec_total_profit (get_sales timestamp_of st date_filter month_filter).1
  /\ (forall returned id n selling buying sold amount time,
         spec_total_profit
           (returned ++ [(id, {| items := [{| item_number := n;
                                              quantity := Some sold;
                                              selling_price := Some selling;
                                              import_price := Some buying |}];
                                 total_amount := amount;
                                 timestamp := time |})])
         = (spec_total_profit returned + (selling - buying) * of_int sold)%float).
Proof.
  split.
  - unfold get_sales, spec_total_profit. cbn [fst snd]. rewrite fold_add_sale_profit.
    f_equal.
  - intros returned id n selling buying sold amount time. unfold spec_total_profit.
    rewrite map_app, concat_app, fold_left_app. reflexivity.
Qed.

Lemma insert_descending_perm doc sorted :
  insert_descending doc sorted ≡ₚ doc :: sorted.
Proof.
  induction sorted as [|x rest IH]; [reflexivity|].
  cbn [insert_descending]. destruct (_ <? _)%float; [|reflexivity].
  rewrite IH. apply perm_swap.
Qed.

Lemma order_by_timestamp_descending_perm docs :
  order_by_timestamp_descending docs ≡ₚ docs.
Proof.
  induction docs as [|doc rest IH]; [reflexivity|].
  cbn [order_by_timestamp_descending foldr]. fold (order_by_timestamp_descending rest).
  rewrite insert_descending_perm. by f_equiv.
Qed.

Lemma elem_of_list_filter {A} (f : A -> bool) (l : list A) (x : A) :
  x ∈ List.filter f l <-> x ∈ l /\ f x = true.
Proof. rewrite !list_elem_of_In. apply filter_In. Qed.

(** C8. With a month filter and no date filter the answer holds exactly the
    sales, each once, whose timestamp is at or after the first instant of the
    month and before the first instant of the next month; after December the
    next month is January of the following year, otherwise the following month
    of the same year. *)
Theorem month_filter_range timestamp_of st y m :
  let start_dt := {| year := y; month := m; day := 1 |} in
  let end_dt := next_month_start start_dt in
  (forall id sale,
      (id, sale) ∈ (get_sales timestamp_of st None (Some (y, m))).1
      <-> sales st !! id = Some sale
          /\ (timestamp_of start_dt <=? timestamp sale)%float = true
          /\ (timestamp sale <? timestamp_of end_dt)%float = true)
  /\ NoDup (get_sales timestamp_of st None (Some (y, m))).1
  /\ next_month_start {| year := y; month := 12; day := 1 |}
     = {| year := y + 1; month := 1; day := 1 |}
  /\ (m <> 12 -> end_dt = {| year := y; month := m + 1; day := 1 |}).
Proof.
  cbn zeta. split; [|split; [|split]].
  - intros id sale. cbn [get_sales fst]. unfold sales_stream.
    rewrite order_by_timestamp_descending_perm, elem_of_list_filter, elem_of_map_to_list.
    unfold timestamp_between. cbn [snd]. rewrite andb_true_iff. reflexivity.
  - cbn [get_sales fst]. unfold sales_stream.
    rewrite order_by_timestamp_descending_perm.
    apply NoDup_ListNoDup, List.NoDup_filter, NoDup_ListNoDup, NoDup_map_to_list.
  - reflexivity.
  - intros Hm. unfold next_month_start. cbn [year month].
    destruct (m =? 12) eqn:E; [apply Z.eqb_eq in E; contradiction|reflexivity].
Qed.

(** The December filter on the three sales: the two of December, latest
    first, and the profit of their two lines. *)
Lemma month_filter_range_witness :
  get_sales utc_timestamp year_end None (Some (2023, 12))
  = ([("last"%string, sale_at 1704067199); ("first"%string, sale_at 1701388800)], of_int 6)
  /\ ("new"%string, sale_at 1704067200) ∉ (get_sales utc_timestamp year_end None (Some (2023, 12))).1.
Proof.
  split; [vm_compute; reflexivity|].
  destruct (month_filter_range utc_timestamp year_end 2023 12) as (Hiff & _).
  intros Hin. apply Hiff in Hin as (_ & _ & Hlt). vm_compute in Hlt. discriminate Hlt.
Defined.

(** ** DeleteProduct *)

Lemma delete_all_lookup ids (m : gmap string Sale) id :
  delete_all ids m !! id = if decide (id ∈ ids) then None else m !! id.
Proof.
  revert m. induction ids as [|x rest IH]; intros m.
  - rewrite decide_False by apply not_elem_of_nil. reflexivity.
  - cbn [delete_all fold_left]. fold (delete_all rest (delete x m)). rewrite IH.
    destruct (decide (id ∈ rest)) as [Hin|Hin].
    + rewrite decide_True by (by apply list_elem_of_further). reflexivity.
    + destruct (decide (x = id)) as [->|Hne].
      * rewrite decide_True by apply list_elem_of_here. apply lookup_delete_eq.
      * rewrite decide_False by (intros [?|?]%elem_of_cons; congruence).
        by apply lookup_delete_ne.
Qed.

Lemma commit_delete_sales st ids rest :
  commit st (map DeleteSaleDoc ids ++ rest)
  = commit {| products := products st; sales := delete_all ids (sales st) |} rest.
Proof.
  revert st. induction ids as [|id ids IH]; intros st.
  - destruct st. reflexivity.
  - cbn [map app commit apply_write]. rewrite IH. reflexivity.
Qed.

Lemma delete_product_result st item_number :
  delete_product st item_number
  = (Ok200 "Product and associated sales deleted.",
     {| products := delete (upper item_number) (products st);
        sales := delete_all (map fst (sales_query st (upper item_number))) (sales st) |}).
Proof.
  unfold delete_product, run_transaction, delete_product_and_sales_transaction.
  cbn [bind ret]. rewrite <- (map_map fst DeleteSaleDoc), commit_delete_sales. reflexivity.
Qed.

(** The cascade's query finds a sale only through a line that is the queried
    value itself: an item number and no other field. *)
Lemma array_contains_item_number_only arr key :
  array_contains arr (item_number_only key) = true ->
  exists item, item ∈ arr /\ quantity item = None /\ selling_price item = None
               /\ import_price item = None.
Proof.
  unfold array_contains. rewrite existsb_exists. intros (item & Hin & Heq).
  exists item. split; [by apply list_elem_of_In|].
  unfold item_eqb in Heq. cbn [item_number_only item_number quantity selling_price import_price] in Heq.
  destruct (quantity item), (selling_price item), (import_price item);
    rewrite ?andb_false_r in Heq; try discriminate; auto.
Qed.

Lemma sales_query_priced st key :
  lines_priced st -> sales_query st key = [].
Proof.
  intros Hpriced. unfold sales_query.
  destruct (List.filter _ _) as [|[id sale] rest] eqn:Hfilter; [reflexivity|].
  assert (Hin : (id, sale) ∈ List.filter
            (fun doc => array_contains (items doc.2) (item_number_only key))
            (map_to_list (sales st))) by (rewrite Hfilter; apply list_elem_of_here).
  apply elem_of_list_filter in Hin as [Hin Hmatch]. apply elem_of_map_to_list in Hin.
  apply array_contains_item_number_only in Hmatch as (item & Hitem & _ & _ & Hnone).
  destruct (Hpriced id sale item Hin Hitem) as [price Hprice]. cbn [snd] in *. congruence.
Qed.

Lemma record_sale_cases st payload sale_id now :
  (exists st', record_sale st payload sale_id now = (Ok200 "Sale recorded successfully!", st'))
  \/ (record_sale st payload sale_id now).2 = st.
Proof.
  unfold record_sale. destruct payload as [|item rest]; [by right|].
  destruct (run_transaction _ _) as [e|st']; [right; destruct e; reflexivity|eauto].
Qed.

Lemma record_sale_lines_priced st payload sale_id now :
  lines_priced st -> lines_priced (record_sale st payload sale_id now).2.
Proof.
  intros Hpriced.
  destruct (record_sale_cases st payload sale_id now) as [[st' Hsale]| ->]; [|exact Hpriced].
  destruct (record_sale_inv _ _ _ _ _ _ Hsale) as (Hne & Hpass & Hcomplete).
  destruct (record_sale_ok st _ sale_id now Hne Hpass Hcomplete) as (st1 & Hok & Hsales & _).
  rewrite Hok. cbn [snd].
  intros id sale item Hid Hitem. rewrite Hsales in Hid.
  destruct (decide (sale_id = id)) as [->|Hother].
  - rewrite lookup_insert_eq in Hid. injection Hid as <-.
    cbn [items sale_document] in Hitem.
    apply list_elem_of_fmap in Hitem as (posted & -> & _). cbn. eauto.
  - rewrite lookup_insert_ne in Hid by exact Hother. eapply Hpriced; eauto.
Qed.

(** C2 (the code departs from it). In a store whose sale lines all carry an
    import price, as every line written by [record_sale] does, [delete_product]
    removes the product document and no sale at all: every sale stays as it
    is, those whose lines name the deleted product included. *)
Theorem delete_product_keeps_priced_sales st item_number :
  lines_priced st ->
  exists st',
    delete_product st item_number = (Ok200 "Product and associated sales deleted.", st')
    /\ products st' = delete (upper item_number) (products st)
    /\ sales st' = sales st.
Proof.
  intros Hpriced. eexists. split; [apply delete_product_result|].
  split; [reflexivity|]. cbn [sales]. rewrite (sales_query_priced _ _ Hpriced). reflexivity.
Qed.

(** Product A is sold, then deleted: the sale s1 naming A is still there. *)
Lemma delete_product_keeps_priced_sales_witness :
  let sold := (record_sale shop [line "A" 3 8] "s1" noon).2 in
  let answer := delete_product sold "a" in
  (map item_number <$> (items <$> sales sold !! "s1"%string)) = Some [Some "A"%string]
  /\ answer.1 = Ok200 "Product and associated sales deleted."
  /\ products answer.2 !! "A"%string = None
  /\ sales answer.2 = sales sold.
Proof.
  cbn zeta.
  destruct (delete_product_keeps_priced_sales (record_sale shop [line "A" 3 8] "s1" noon).2 "a")
    as (st' & Hanswer & Hproducts & Hsales).
  - apply record_sale_lines_priced. intros id sale item Hid. vm_compute in Hid. discriminate Hid.
  - rewrite Hanswer. cbn [fst snd]. split; [vm_compute; reflexivity|].
    split; [reflexivity|]. split; [|exact Hsales].
    rewrite Hproducts. vm_compute. reflexivity.
Defined.

(** C6, as the code has it. [delete_product] never answers that the product
    was not found: it answers the success for every item number, leaves the
    catalog without that product, which is the catalog as it was when the
    product did not exist, and deletes no sale when its query matches none. *)
Theorem delete_product_always_succeeds st item_number :
  exists st',
    delete_product st item_number = (Ok200 "Product and associated sales deleted.", st')
    /\ products st' = delete (upper item_number) (products st)
    /\ (products st !! upper item_number = None -> products st' = products st)
    /\ (sales_query st (upper item_number) = [] -> sales st' = sales st).
Proof.
  eexists. split; [apply delete_product_result|]. cbn [products sales].
  split; [reflexivity|]. split.
  - apply delete_id.
  - intros ->. reflexivity.
Qed.

(** C6 as stated fails: no product Z exists in the shop, and deleting it is
    answered with the success, not with an error. *)
Lemma delete_product_absent_succeeds :
  products shop !! upper "Z" = None
  /\ delete_product shop "Z" = (Ok200 "Product and associated sales deleted.", shop).
Proof. split; vm_compute; reflexivity. Qed.

(** ** DeleteSale *)

Lemma restore_writes_stamped snapshot payload :
  restore_writes (map (stamped snapshot) payload) = restore_writes payload.
Proof.
  induction payload as [|item rest IH]; [reflexivity|].
  cbn [map restore_writes]. rewrite IH. reflexivity.
Qed.

(** Every restoring write is aimed at the item number a line holds, as it is. *)
Lemma restore_writes_targets sale_items w :
  w ∈ restore_writes sale_items ->
  exists item, item ∈ sale_items /\ item_number item = Some (target w)
               /\ w = IncrementQuantity (target w) (requested item).
Proof.
  induction sale_items as [|item rest IH]; [intros []%elem_of_nil|].
  cbn [restore_writes]. fold (requested item).
  assert (Hrest : w ∈ restore_writes rest ->
                  exists x, x ∈ item :: rest /\ item_number x = Some (target w)
                            /\ w = IncrementQuantity (target w) (requested x)).
  { intros Hw. destruct (IH Hw) as (x & Hx & Hrest). exists x. split; [by apply list_elem_of_further|exact Hrest]. }
  destruct (item_number item) as [n|] eqn:Hn; [|exact Hrest].
  destruct (truthy n && (0 <? requested item))%bool; [|exact Hrest].
  intros [->|Hw]%elem_of_cons; [|exact (Hrest Hw)].
  exists item. split; [apply list_elem_of_here|]. split; [exact Hn|reflexivity].
Qed.

Lemma restore_writes_elem sale_items item n :
  item ∈ sale_items ->
  item_number item = Some n ->
  truthy n = true ->
  0 < requested item ->
  IncrementQuantity n (requested item) ∈ restore_writes sale_items.
Proof.
  intros Hin Hn Htruthy Hpos.
  induction sale_items as [|x rest IH]; [by apply elem_of_nil in Hin|].
  cbn [restore_writes]. fold (requested x).
  apply elem_of_cons in Hin as [<-|Hin].
  - rewrite Hn, Htruthy. apply Z.ltb_lt in Hpos. rewrite Hpos. apply list_elem_of_here.
  - specialize (IH Hin). destruct (item_number x) as [m|]; [|exact IH].
    destruct (truthy m && (0 <? requested x))%bool; [by apply list_elem_of_further|exact IH].
Qed.

(** A restoring write aimed at a key without a document makes the commit
    fail: the increments before it create no product. *)
Lemma commit_restore_missing sale_items rest st key q :
  IncrementQuantity key q ∈ restore_writes sale_items ->
  products st !! key = None ->
  commit st (restore_writes sale_items ++ rest) = None.
Proof.
  intros Hin. assert (Hws : Forall (fun w => exists k n, w = IncrementQuantity k n)
                                   (restore_writes sale_items)).
  { apply Forall_forall. intros w Hw.
    destruct (restore_writes_targets _ _ Hw) as (x & _ & _ & ->). eauto. }
  revert st Hin Hws. induction (restore_writes sale_items) as [|w ws IH]; intros st Hin Hws Hnone.
  - by apply elem_of_nil in Hin.
  - inversion Hws as [|? ? (k & n & ->) Hws']; subst.
    cbn [app commit apply_write].
    destruct (products st !! k) as [p|] eqn:Hp; [|reflexivity].
    apply elem_of_cons in Hin as [Heq|Hin]; [congruence|].
    apply IH; [exact Hin|exact Hws'|].
    cbn [products]. rewrite lookup_insert_ne; [exact Hnone|congruence].
Qed.

Lemma delete_sale_of_recorded st1 sale_id sale :
  sales st1 !! sale_id = Some sale ->
  restore_stock_and_delete_sale st1 sale_id
  = inr (restore_writes (items sale) ++ [DeleteSaleDoc sale_id]).
Proof. unfold restore_stock_and_delete_sale. intros ->. reflexivity. Qed.

Lemma add_update_product_key st product_data kept uploaded msg st' :
  add_update_product st product_data kept uploaded = (Ok200 msg, st') ->
  exists doc,
    products st' = <[upper (default ""%string (f_item_number product_data)) := doc]> (products st).
Proof.
  unfold add_update_product. destruct (negb _); [discriminate|].
  intros H. injection H as _ <-. eexists. reflexivity.
Qed.

(** C9. A product is saved under its uppercased item number. A successful
    [record_sale] aims its quantity updates at the uppercased item numbers of
    the posted lines and stores the lines with the item numbers as posted.
    [delete_sale] of that sale stages the restoring writes of the stored
    lines, each aimed at the item number a line holds, as it is, and one for
    every line with a non-empty item number and a positive quantity. So for
    such a line with the item number [n], the restore is aimed at [n] while the
    sale updated [upper n], another key when [n] is not in upper case; and when
    no document has the key [n], [delete_sale] answers 500 and restores
    nothing. *)
Theorem restore_aims_at_posted_item_number st payload sale_id now st1 :
  record_sale st payload sale_id now = (Ok200 "Sale recorded successfully!", st1) ->
  (forall product_data kept uploaded msg st',
      add_update_product st product_data kept uploaded = (Ok200 msg, st') ->
      exists doc,
        products st' = <[upper (default ""%string (f_item_number product_data)) := doc]> (products st))
  /\ exists sale,
      sales st1 !! sale_id = Some sale
      /\ map item_number (items sale) = map item_number payload
      /\ update_in_transaction (products st) payload sale_id now
         = inr (quantity_updates (products st) payload ++ [SetSale sale_id sale])
      /\ map target (quantity_updates (products st) payload)
         = map (fun item => upper (default ""%string (item_number item))) payload
      /\ restore_stock_and_delete_sale st1 sale_id
         = inr (restore_writes (items sale) ++ [DeleteSaleDoc sale_id])
      /\ (forall w, w ∈ restore_writes (items sale) ->
                    exists item, item ∈ payload /\ item_number item = Some (target w))
      /\ (forall item n,
             item ∈ payload -> item_number item = Some n ->
             truthy n = true -> 0 < requested item ->
             IncrementQuantity n (requested item) ∈ restore_writes (items sale)
             /\ (exists q, UpdateQuantity (upper n) q ∈ quantity_updates (products st) payload)
             /\ (products st1 !! n = None ->
                 delete_sale st1 sale_id = (ServerError500 NotFound, st1))).
Proof.
  intros Hsale. split; [intros *; apply add_update_product_key|].
  destruct (record_sale_inv _ _ _ _ _ _ Hsale) as (Hne & Hpass & Hcomplete).
  pose proof (record_sale_sale_document _ _ _ _ _ _ Hsale) as Hdoc.
  exists (sale_document (products st) payload now).
  split; [exact Hdoc|]. cbn [items sale_document]. rewrite restore_writes_stamped.
  split; [rewrite map_map; reflexivity|].
  split; [by apply update_in_transaction_ok|].
  split; [unfold quantity_updates; rewrite map_map; reflexivity|].
  split; [rewrite (delete_sale_of_recorded _ _ _ Hdoc); cbn [items sale_document];
          by rewrite restore_writes_stamped|].
  split.
  - intros w Hw. destruct (restore_writes_targets _ _ Hw) as (item & Hin & Hn & _). eauto.
  - intros item n Hin Hn Htruthy Hpos.
    pose proof (restore_writes_elem _ _ _ Hin Hn Htruthy Hpos) as Hw.
    split; [exact Hw|]. split.
    { eexists. unfold quantity_updates. apply list_elem_of_fmap. exists item.
      split; [|exact Hin]. unfold key_of. rewrite Hn. reflexivity. }
    intros Hnone. unfold delete_sale, run_transaction.
    rewrite (delete_sale_of_recorded _ _ _ Hdoc). cbn [bind items sale_document].
    rewrite restore_writes_stamped, (commit_restore_missing _ _ _ _ _ Hw Hnone). reflexivity.
Qed.

(** Product A is sold under the item number "a": the sale decrements the
    document A, keeps "a" in its line, and deleting it is aimed at a document
    "a" that does not exist. *)
Lemma restore_aims_at_posted_item_number_witness :
  exists st1,
    record_sale shop [line "a" 3 8] "s1" noon = (Ok200 "Sale recorded successfully!", st1)
    /\ quantity_of st1 "A" = Some 7
    /\ restore_stock_and_delete_sale st1 "s1"
       = inr [IncrementQuantity "a" 3; DeleteSaleDoc "s1"]
    /\ delete_sale st1 "s1" = (ServerError500 NotFound, st1).
Proof.
  eexists. split; [vm_compute; reflexivity|]. split; [vm_compute; reflexivity|].
  split; [vm_compute; reflexivity|].
  destruct (restore_aims_at_posted_item_number shop [line "a" 3 8] "s1" noon _ eq_refl)
    as (_ & sale & _ & _ & _ & _ & _ & _ & Hline).
  destruct (Hline (line "a" 3 8) "a"%string) as (_ & _ & Hfails);
    [apply list_elem_of_here|reflexivity|reflexivity|reflexivity|].
  apply Hfails. vm_compute. reflexivity.
Defined.

(** Two sales whose lines are not regular or not distinct. First, two lines
    naming product A, for 3 and for 4, with 10 on hand: the sale leaves 6, and
    deleting it adds 3 and 4 and leaves 13. Second, one line for 3 under the
    item number "a": the sale leaves 7 in the document A, and deleting it fails
    on the document "a", which leaves 7 and keeps the sale. *)
Theorem sale_then_delete_not_restored :
  (let sold := record_sale shop [line "A" 3 8; line "A" 4 8] "s1" noon in
   let deleted := delete_sale sold.2 "s1" in
   sold.1 = Ok200 "Sale recorded successfully!"
   /\ deleted.1 = Ok200 "Sale deleted and stock restored."
   /\ quantity_of shop "A" = Some 10
   /\ quantity_of sold.2 "A" = Some 6
   /\ quantity_of deleted.2 "A" = Some 13)
  /\ (let sold := record_sale shop [line "a" 3 8] "s1" noon in
      let deleted := delete_sale sold.2 "s1" in
      sold.1 = Ok200 "Sale recorded successfully!"
      /\ deleted.1 = ServerError500 NotFound
      /\ quantity_of sold.2 "A" = Some 7
      /\ quantity_of deleted.2 "A" = Some 7
      /\ is_Some (sales deleted.2 !! "s1"%string)).
Proof. vm_compute. repeat split; eauto. Qed.

(** ** RecordSale then DeleteSale *)

Lemma restored_cons item rest key :
  restored (item :: rest) key
  = (if restores key item then requested item else 0) + restored rest key.
Proof. reflexivity. Qed.

Lemma restored_app pre post key :
  restored (pre ++ post) key = restored pre key + restored post key.
Proof.
  induction pre as [|item pre IH]; [reflexivity|].
  cbn [app]. rewrite !restored_cons. lia.
Qed.

Lemma quantity_of_insert st key p key' :
  quantity_of {| products := <[key := p]> (products st); sales := sales st |} key'
  = if decide (key = key') then Some (int_quantity (p_quantity p)) else quantity_of st key'.
Proof.
  unfold quantity_of. cbn [products]. case_decide as Heq.
  - subst. by rewrite lookup_insert_eq.
  - by rewrite lookup_insert_ne.
Qed.

(** The restoring writes on documents that exist and hold a number: the
    commit goes through and adds to each what its lines restore. *)
Lemma commit_restore_writes sale_items st :
  (forall w, w ∈ restore_writes sale_items ->
             exists p z, products st !! target w = Some p /\ p_quantity p = QNumber z) ->
  exists st',
    commit st (restore_writes sale_items) = Some st'
    /\ sales st' = sales st
    /\ forall key, quantity_of st' key
                   = (fun z => z + restored sale_items key) <$> quantity_of st key.
Proof.
  revert st. induction sale_items as [|item rest IH]; intros st Hdocs.
  - exists st. split; [reflexivity|]. split; [reflexivity|].
    intros key. change (restored [] key) with 0.
    destruct (quantity_of st key); cbn; [f_equal; lia|reflexivity].
  - cbn [restore_writes] in Hdocs |- *. fold (requested item) in Hdocs |- *.
    assert (Hcons := restored_cons item rest). unfold restores in Hcons.
    destruct (item_number item) as [n|];
      [destruct (truthy n && (0 <? requested item))%bool eqn:Hguard|].
    + destruct (Hdocs (IncrementQuantity n (requested item))) as (p & z & Hp & Hz);
        [apply list_elem_of_here|]. cbn [target] in Hp.
      cbn [commit apply_write]. rewrite Hp, Hz. cbn [increment].
      set (p' := with_quantity p (QNumber (z + requested item))).
      destruct (IH {| products := <[n := p']> (products st); sales := sales st |})
        as (st' & Hcommit & Hsales & Hquantity).
      { intros w Hw. cbn [products].
        destruct (decide (n = target w)) as [<-|Hne].
        - rewrite lookup_insert_eq. exists p', (z + requested item). split; reflexivity.
        - rewrite lookup_insert_ne by exact Hne. apply Hdocs. by apply list_elem_of_further. }
      exists st'. split; [exact Hcommit|]. split; [exact Hsales|].
      intros key. rewrite Hquantity, quantity_of_insert, Hcons. cbn [andb].
      case_decide as Heq.
      * subst key. rewrite String.eqb_refl. unfold quantity_of. rewrite Hp.
        subst p'. cbn. rewrite Hz. cbn. f_equal. lia.
      * apply String.eqb_neq in Heq. rewrite Heq.
        destruct (quantity_of st key); cbn; [f_equal; lia|reflexivity].
    + destruct (IH st) as (st' & Hcommit & Hsales & Hquantity); [exact Hdocs|].
      exists st'. split; [exact Hcommit|]. split; [exact Hsales|].
      intros key. rewrite Hquantity, Hcons. cbn [andb].
      destruct (quantity_of st key); cbn; [f_equal; lia|reflexivity].
    + destruct (IH st) as (st' & Hcommit & Hsales & Hquantity); [exact Hdocs|].
      exists st'. split; [exact Hcommit|]. split; [exact Hsales|].
      intros key. rewrite Hquantity, Hcons.
      destruct (quantity_of st key); cbn; [f_equal; lia|reflexivity].
Qed.

Lemma regular_key item : regular item -> item_number item = Some (key_of item).
Proof. intros (n & Hn & _ & Hupper & _). unfold key_of. rewrite Hn. cbn. by rewrite Hupper. Qed.

Lemma restored_other payload key :
  Forall regular payload ->
  key ∉ map key_of payload ->
  restored payload key = 0.
Proof.
  induction payload as [|item rest IH]; intros Hregular Hnot; [reflexivity|].
  inversion Hregular as [|? ? Hitem Hrest]; subst.
  cbn [map] in Hnot. apply not_elem_of_cons in Hnot as [Hne Hnot].
  rewrite restored_cons, (IH Hrest Hnot).
  unfold restores. rewrite (regular_key _ Hitem).
  destruct (String.eqb_spec (key_of item) key) as [Heq|_]; [congruence|].
  rewrite andb_false_r. reflexivity.
Qed.

Lemma restored_own item :
  regular item ->
  (if restores (key_of item) item then requested item else 0) = requested item.
Proof.
  intros Hitem. unfold restores. rewrite (regular_key _ Hitem), String.eqb_refl, andb_true_r.
  destruct Hitem as (n & Hn & Htruthy & Hupper & Hnonneg).
  assert (Hkey : key_of item = n) by (unfold key_of; rewrite Hn; cbn; exact Hupper).
  rewrite Hkey, Htruthy. cbn [andb].
  destruct (0 <? requested item) eqn:Hpos; [reflexivity|].
  apply Z.ltb_ge in Hpos. lia.
Qed.

Lemma delete_sale_failure_unchanged st sale_id :
  (delete_sale st sale_id).1 <> Ok200 "Sale deleted and stock restored." ->
  (delete_sale st sale_id).2 = st.
Proof.
  unfold delete_sale. destruct (run_transaction _ _) as [e|st']; [destruct e; reflexivity|].
  cbn [fst]. congruence.
Qed.




(** ** Further properties of the endpoints *)

Lemma record_sale_other st payload sale_id now msg st' key :
  record_sale st payload sale_id now = (Ok200 msg, st') ->
  key ∉ map key_of payload ->
  products st' !! key = products st !! key.
Proof.
  intros Hsale Hnot.
  destruct (record_sale_inv _ _ _ _ _ _ Hsale) as (Hne & Hpass & Hcomplete).
  destruct (record_sale_ok st _ sale_id now Hne Hpass Hcomplete) as (st1 & Hok & _ & Hproducts).
  rewrite Hsale in Hok. injection Hok as _ ->.
  rewrite Hproducts. by rewrite decide_False.
Qed.

Lemma last_line_naming payload key :
  key ∈ map key_of payload ->
  exists pre item post,
    payload = pre ++ item :: post /\ key_of item = key /\ key ∉ map key_of post.
Proof.
  induction payload as [|x rest IH]; [intros []%elem_of_nil|].
  intros Hin. destruct (decide (key ∈ map key_of rest)) as [Hrest|Hrest].
  - destruct (IH Hrest) as (pre & item & post & -> & Hkey & Hpost).
    exists (x :: pre), item, post. auto.
  - cbn [map] in Hin. apply elem_of_cons in Hin as [->|Hin]; [|contradiction].
    exists [], x, rest. auto.
Qed.

Lemma passes_stock snapshot payload item :
  forallb (passes snapshot) payload = true ->
  item ∈ payload ->
  requested item <= on_hand snapshot (key_of item).
Proof.
  rewrite forallb_forall. intros Hall Hin. apply list_elem_of_In in Hin.
  specialize (Hall _ Hin). unfold passes in Hall. unfold on_hand.
  destruct (snapshot !! key_of item) as [p|]; [|discriminate].
  apply negb_true_iff, Z.ltb_ge in Hall. exact Hall.
Qed.

(** X1. After a successful [record_sale] whose lines name pairwise different
    products, each named product is left with the quantity read in the
    transaction minus what its line asks for, and every other product
    document is as it was. *)
Theorem record_sale_distinct_products st payload sale_id now st' :
  record_sale st payload sale_id now = (Ok200 "Sale recorded successfully!", st') ->
  NoDup (map key_of payload) ->
  (forall item, item ∈ payload ->
                quantity_of st' (key_of item)
                = Some (on_hand (products st) (key_of item) - requested item))
  /\ (forall key, key ∉ map key_of payload -> products st' !! key = products st !! key).
Proof.
  intros Hsale Hnodup. split; [|intros key; eapply record_sale_other, Hsale].
  intros item Hin. destruct (list_elem_of_split _ _ Hin) as (pre & post & ->).
  eapply record_sale_last_line; [exact Hsale|].
  rewrite map_app in Hnodup. cbn [map] in Hnodup.
  apply NoDup_app in Hnodup as (_ & _ & Hpost). by apply NoDup_cons in Hpost as [Hpost _].
Qed.

(** Three units of product A: 7 are left. *)
Lemma record_sale_distinct_products_witness :
  quantity_of (record_sale shop [line "A" 3 8] "s1" noon).2 "A" = Some 7.
Proof.
  destruct (record_sale_distinct_products shop [line "A" 3 8] "s1" noon _ eq_refl) as [H _].
  - apply NoDup_cons. split; [apply not_elem_of_nil|apply NoDup_nil_2].
  - apply (H (line "A" 3 8)), list_elem_of_here.
Defined.

(** X2. After a successful [record_sale], whatever its lines, no product that
    a line names is left with a negative quantity. *)
Theorem record_sale_never_negative st payload sale_id now st' key :
  record_sale st payload sale_id now = (Ok200 "Sale recorded successfully!", st') ->
  key ∈ map key_of payload ->
  exists q, quantity_of st' key = Some q /\ 0 <= q.
Proof.
  intros Hsale Hin.
  destruct (last_line_naming _ _ Hin) as (pre & item & post & -> & <- & Hlast).
  rewrite (record_sale_last_line _ _ _ _ _ _ _ _ Hsale Hlast).
  destruct (record_sale_inv _ _ _ _ _ _ Hsale) as (_ & Hpass & _).
  eexists. split; [reflexivity|].
  pose proof (passes_stock _ _ item Hpass) as Hstock.
  specialize (Hstock ltac:(apply elem_of_app; right; apply list_elem_of_here)). lia.
Qed.

(** Two lines of 6 for a product with 10 on hand: 4 are left. *)
Lemma record_sale_never_negative_witness :
  exists q,
    quantity_of (record_sale shop [line "A" 6 8; line "A" 6 8] "s1" noon).2 "A" = Some q
    /\ 0 <= q.
Proof.
  apply (record_sale_never_negative shop [line "A" 6 8; line "A" 6 8] "s1" noon _ "A" eq_refl).
  apply list_elem_of_here.
Defined.

Lemma fold_line_amount_stamped snapshot payload total :
  fold_left (fun acc item => (acc + line_amount item)%float) (map (stamped snapshot) payload) total
  = fold_left (fun acc item => (acc + line_amount item)%float) payload total.
Proof.
  revert total. induction payload as [|item rest IH]; intros total; [reflexivity|].
  cbn [map fold_left]. apply IH.
Qed.

(** X3. The [total_amount] of a recorded sale is the sum, in the order of the
    lines, of the posted selling price times the posted quantity. *)
Theorem total_amount_sum st payload sale_id now st' :
  record_sale st payload sale_id now = (Ok200 "Sale recorded successfully!", st') ->
  exists sale,
    sales st' !! sale_id = Some sale
    /\ timestamp sale = now
    /\ total_amount sale
       = fold_left (fun acc item => (acc + line_amount item)%float) payload (of_int 0).
Proof.
  intros Hsale. eexists. split; [eapply record_sale_sale_document, Hsale|].
  split; [reflexivity|]. apply fold_line_amount_stamped.
Qed.

(** Three units at 8: a total of 24. *)
Lemma total_amount_sum_witness :
  (total_amount <$> sales (record_sale shop [line "A" 3 8] "s1" noon).2 !! "s1"%string)
  = Some (of_int 24).
Proof.
  destruct (total_amount_sum shop [line "A" 3 8] "s1" noon
              (record_sale shop [line "A" 3 8] "s1" noon).2 eq_refl)
    as (sale & Hsale & _ & Htotal).
  rewrite Hsale. cbn [fmap option_fmap option_map]. rewrite Htotal. vm_compute. reflexivity.
Defined.

(** X4. [delete_sale] of an id without a sale document answers 404 "Sale record
    not found." and leaves the store as it was. *)
Theorem delete_sale_not_found st sale_id :
  sales st !! sale_id = None ->
  delete_sale st sale_id = (NotFound404 "Sale record not found.", st).
Proof.
  intros Hnone. unfold delete_sale, restore_stock_and_delete_sale. rewrite Hnone. reflexivity.
Qed.

Lemma delete_sale_not_found_witness :
  delete_sale shop "s1" = (NotFound404 "Sale record not found.", shop).
Proof. apply delete_sale_not_found. reflexivity. Defined.

(** The day after a date of the calendar is a date of the calendar, and its
    day number, counted from 1970-01-01, is one more. *)
Lemma plus_one_day_next y m d :
  1 <= m <= 12 -> 1 <= d <= days_in_month y m ->
  let next := plus_one_day {| year := y; month := m; day := d |} in
  days_from_civil next = days_from_civil {| year := y; month := m; day := d |} + 1
  /\ 1 <= month next <= 12
  /\ 1 <= day next <= days_in_month (year next) (month next).
Proof.
  intros Hm Hd. cbn zeta. unfold plus_one_day. cbn [year month day].
  assert (Hleap : is_leap y = true /\ y mod 4 = 0 /\ (y mod 100 <> 0 \/ y mod 400 = 0)
                  \/ is_leap y = false /\ (y mod 4 <> 0 \/ y mod 100 = 0 /\ y mod 400 <> 0)).
  { unfold is_leap.
    destruct (Z.eqb_spec (y mod 4) 0), (Z.eqb_spec (y mod 100) 0), (Z.eqb_spec (y mod 400) 0);
      cbn [andb orb negb]; intuition congruence. }
  assert (Hcases : m = 1 \/ m = 2 \/ m = 3 \/ m = 4 \/ m = 5 \/ m = 6 \/ m = 7 \/ m = 8
                   \/ m = 9 \/ m = 10 \/ m = 11 \/ m = 12) by lia.
  destruct (d <? days_in_month y m) eqn:Hlt.
  - apply Z.ltb_lt in Hlt. cbn [year month day]. split; [|lia].
    unfold days_from_civil. cbn [year month day]. lia.
  - apply Z.ltb_ge in Hlt. assert (Hlast : d = days_in_month y m) by lia. clear Hlt Hd.
    unfold days_in_month in Hlast.
    destruct Hleap as [(Hleap & H4 & H100)|(Hleap & H4)]; rewrite Hleap in Hlast;
      destruct Hcases as [->|[->|[->|[->|[->|[->|[->|[->|[->|[->|[->| ->]]]]]]]]]]];
      cbn in Hlast; subst d; unfold days_from_civil, days_in_month;
      cbn [year month day]; rewrite ?Hleap;
      repeat match goal with
             | |- context [if ?b then _ else _] =>
                 let v := eval vm_compute in b in
                 lazymatch v with
                 | true => change b with true
                 | false => change b with false
                 end;
                 cbn [year month day]
             end;
      rewrite ?Hleap;
      (split; [Z.div_mod_to_equations; lia|lia]).
Qed.

(** X5. With a date filter the answer holds exactly the sales whose timestamp is
    at or after the first instant of the day and before the first instant of
    the next day, whatever the month argument; the next day is the date of
    the calendar whose day number is one more, across the ends of the months,
    of February in leap years and others, and of the year. Without any filter
    the answer holds all the sales. *)
Theorem date_filter_range timestamp_of st y m d month_filter :
  let start_dt := {| year := y; month := m; day := d |} in
  (forall id sale,
      (id, sale) ∈ (get_sales timestamp_of st (Some (y, m, d)) month_filter).1
      <-> sales st !! id = Some sale
          /\ (timestamp_of start_dt <=? timestamp sale)%float = true
          /\ (timestamp sale <? timestamp_of (plus_one_day start_dt))%float = true)
  /\ (1 <= m <= 12 -> 1 <= d <= days_in_month y m ->
      days_from_civil (plus_one_day start_dt) = days_from_civil start_dt + 1
      /\ 1 <= month (plus_one_day start_dt) <= 12
      /\ 1 <= day (plus_one_day start_dt)
         <= days_in_month (year (plus_one_day start_dt)) (month (plus_one_day start_dt)))
  /\ (forall id sale,
         (id, sale) ∈ (get_sales timestamp_of st None None).1 <-> sales st !! id = Some sale).
Proof.
  cbn zeta. split; [|split; [intros Hm Hd; exact (plus_one_day_next y m d Hm Hd)|]];
    intros id sale; cbn [get_sales fst]; unfold sales_stream;
    rewrite order_by_timestamp_descending_perm.
  - rewrite elem_of_list_filter, elem_of_map_to_list.
    unfold timestamp_between. cbn [snd]. rewrite andb_true_iff. reflexivity.
  - apply elem_of_map_to_list.
Qed.

(** The sales of 2023-12-31 (UTC): the one of 23:59:59, not the one of the
    midnight that follows, and not the one of 2023-12-01. The day after is
    2024-01-01; the day after 2024-02-28 is 2024-02-29, the day after
    2023-02-28 is 2023-03-01. *)
Lemma date_filter_range_witness :
  (get_sales utc_timestamp year_end (Some (2023, 12, 31)) (Some (2023, 12))).1
  = [("last"%string, sale_at 1704067199)]
  /\ plus_one_day {| year := 2023; month := 12; day := 31 |}
     = {| year := 2024; month := 1; day := 1 |}
  /\ days_from_civil {| year := 2024; month := 1; day := 1 |}
     = days_from_civil {| year := 2023; month := 12; day := 31 |} + 1
  /\ plus_one_day {| year := 2024; month := 2; day := 28 |}
     = {| year := 2024; month := 2; day := 29 |}
  /\ plus_one_day {| year := 2023; month := 2; day := 28 |}
     = {| year := 2023; month := 3; day := 1 |}
  /\ days_from_civil {| year := 1970; month := 1; day := 1 |} = 0.
Proof.
  destruct (date_filter_range utc_timestamp year_end 2023 12 31 (Some (2023, 12)))
    as (_ & Hnext & _).
  destruct Hnext as (Hday & _); [lia|vm_compute; split; discriminate|].
  split; [vm_compute; reflexivity|]. split; [reflexivity|].
  split; [exact Hday|]. repeat split.
Defined.



(** ** Product types *)

Lemma rstrip_cons c r c' r' :
  rstrip r = String c' r' -> rstrip (String c r) = String c (String c' r').
Proof. intros H. cbn [rstrip]. rewrite H. reflexivity. Qed.

Lemma rstrip_idempotent s : rstrip (rstrip s) = rstrip s.
Proof.
  induction s as [|c r IH]; [reflexivity|].
  cbn [rstrip]. destruct (rstrip r) as [|c' r'] eqn:Hr.
  - destruct (is_space c) eqn:Hc; [reflexivity|]. cbn [rstrip]. rewrite Hc. reflexivity.
  - apply rstrip_cons, IH.
Qed.

Lemma rstrip_head c r :
  is_space c = false -> exists kept, rstrip (String c r) = String c kept.
Proof.
  intros Hc. cbn [rstrip]. destruct (rstrip r); [rewrite Hc|]; eauto.
Qed.

Lemma lstrip_head s : lstrip s = EmptyString \/ exists c r, lstrip s = String c r /\ is_space c = false.
Proof.
  induction s as [|c r IH]; [by left|].
  cbn [lstrip]. destruct (is_space c) eqn:Hc; [exact IH|]. right. eauto.
Qed.

Lemma strip_idempotent s : strip (strip s) = strip s.
Proof.
  unfold strip. destruct (lstrip_head s) as [->|(c & r & -> & Hc)]; [reflexivity|].
  destruct (rstrip_head c r Hc) as [kept Hkept]. rewrite Hkept.
  cbn [lstrip]. rewrite Hc, <- Hkept. apply rstrip_idempotent.
Qed.

(** The duplicate check of [add_type] finds a document exactly when some
    document has the name. *)
Lemma existing_types_query_spec (types : gmap string string) name :
  (0 <? length (take 1 (List.filter (fun doc => String.eqb doc.2 name) (map_to_list types))))%nat = true
  <-> exists id, types !! id = Some name.
Proof.
  split.
  - destruct (List.filter _ _) as [|[id n] rest] eqn:Hfilter; [discriminate|]. intros _.
    assert (Hin : (id, n) ∈ List.filter (fun doc : string * string => String.eqb doc.2 name)
                                        (map_to_list types))
      by (rewrite Hfilter; apply list_elem_of_here).
    apply elem_of_list_filter in Hin as [Hin Heq]. apply elem_of_map_to_list in Hin.
    apply String.eqb_eq in Heq. cbn in Heq. subst. eauto.
  - intros [id Hid].
    assert (Hin : (id, name) ∈ List.filter (fun doc : string * string => String.eqb doc.2 name)
                                           (map_to_list types)).
    { apply elem_of_list_filter. split; [by apply elem_of_map_to_list|apply String.eqb_refl]. }
    destruct (List.filter _ _); [by apply elem_of_nil in Hin|reflexivity].
Qed.

Lemma add_type_cases types name new_id :
  let type_name := strip (default ""%string name) in
  (truthy type_name = false /\ add_type types name new_id = (Reply400 "Type name cannot be empty.", types))
  \/ (truthy type_name = true /\ (exists id, types !! id = Some type_name)
      /\ add_type types name new_id = (Reply409 "This product type already exists.", types))
  \/ (truthy type_name = true /\ (forall id, types !! id <> Some type_name)
      /\ is_Some (types !! new_id) /\ add_type types name new_id = (Reply500, types))
  \/ (truthy type_name = true /\ (forall id, types !! id <> Some type_name)
      /\ types !! new_id = None
      /\ add_type types name new_id = (Reply200 "Product type added.", <[new_id := type_name]> types)).
Proof.
  cbn zeta. unfold add_type.
  destruct (truthy (strip (default ""%string name))) eqn:Hname; [|by left].
  right. cbn [negb].
  destruct (0 <? length _)%nat eqn:Hquery.
  - left. split; [reflexivity|]. split; [by apply existing_types_query_spec|reflexivity].
  - right.
    assert (Hnone : forall id, types !! id <> Some (strip (default ""%string name))).
    { intros id Hid. assert (Hex : exists id, types !! id = Some (strip (default ""%string name))) by eauto.
      apply existing_types_query_spec in Hex. congruence. }
    destruct (types !! new_id) eqn:Hnew; [left|right]; eauto.
Qed.

Lemma add_type_well_named types name new_id :
  well_named types -> well_named (add_type types name new_id).2.
Proof.
  intros [Hunique Hnames].
  destruct (add_type_cases types name new_id)
    as [[_ ->]|[(_ & _ & ->)|[(_ & _ & _ & ->)|(Htruthy & Hnone & Hnew & ->)]]];
    try (split; assumption).
  cbn [snd]. split.
  - intros id1 id2 n H1 H2.
    destruct (decide (new_id = id1)) as [<-|Hne1], (decide (new_id = id2)) as [<-|Hne2].
    + reflexivity.
    + rewrite lookup_insert_eq in H1. rewrite lookup_insert_ne in H2 by exact Hne2.
      injection H1 as <-. by destruct (Hnone id2).
    + rewrite lookup_insert_eq in H2. rewrite lookup_insert_ne in H1 by exact Hne1.
      injection H2 as <-. by destruct (Hnone id1).
    + rewrite lookup_insert_ne in H1 by exact Hne1. rewrite lookup_insert_ne in H2 by exact Hne2.
      eapply Hunique; eauto.
  - intros id n Hid. destruct (decide (new_id = id)) as [<-|Hne].
    + rewrite lookup_insert_eq in Hid. injection Hid as <-.
      split; [exact Htruthy|apply strip_idempotent].
    + rewrite lookup_insert_ne in Hid by exact Hne. eapply Hnames, Hid.
Qed.

Lemma delete_type_well_named types type_id :
  well_named types -> well_named (delete_type types type_id).2.
Proof.
  intros [Hunique Hnames]. cbn [delete_type snd]. split.
  - intros id1 id2 n H1 H2.
    apply lookup_delete_Some in H1 as [_ H1]. apply lookup_delete_Some in H2 as [_ H2].
    eapply Hunique; eauto.
  - intros id n Hid. apply lookup_delete_Some in Hid as [_ Hid]. eapply Hnames, Hid.
Qed.

(** X7. Whatever requests to add and to delete product types are served,
    with whatever names and ids, starting from types that are well named (as
    none are): no two type documents ever have the same name, and every stored
    name is non-empty and stripped of the spaces around it. *)
Theorem product_types_stay_well_named types requests :
  well_named types -> well_named (fold_left serve_type requests types).
Proof.
  revert types. induction requests as [|request rest IH]; intros types Hwell; [exact Hwell|].
  cbn [fold_left]. apply IH. destruct request as [name new_id|type_id].
  - by apply add_type_well_named.
  - by apply delete_type_well_named.
Qed.

(** "Fruit" is added twice, with and without spaces, deleted, and added
    again: one document named "Fruit" is left. *)
Lemma product_types_stay_well_named_witness :
  well_named (fold_left serve_type
                [AddType (Some " Fruit "%string) "t1"; AddType (Some "Fruit"%string) "t2";
                 DeleteType "t1"; AddType (Some "Fruit  "%string) "t3"] ∅)
  /\ get_types (fold_left serve_type
                  [AddType (Some " Fruit "%string) "t1"; AddType (Some "Fruit"%string) "t2";
                   DeleteType "t1"; AddType (Some "Fruit  "%string) "t3"] ∅)
     = [("t3"%string, "Fruit"%string)].
Proof.
  split; [|vm_compute; reflexivity].
  apply product_types_stay_well_named. split; intros *; rewrite lookup_empty; discriminate.
Defined.

(** X8. Once a type is added, adding a name that is the same once stripped
    is answered 409 and changes nothing, whatever id is drawn; so is adding
    the name of any stored document, when that name is non-empty and
    stripped. An empty name, or one of spaces only, is answered 400 and
    changes nothing. *)
Theorem add_type_rejects_duplicates types name new_id types1 :
  add_type types name new_id = (Reply200 "Product type added.", types1) ->
  (forall name' id',
      strip (default ""%string name') = strip (default ""%string name) ->
      add_type types1 name' id' = (Reply409 "This product type already exists.", types1))
  /\ (forall id stored id',
         types1 !! id = Some stored -> truthy stored = true -> strip stored = stored ->
         add_type types1 (Some stored) id'
         = (Reply409 "This product type already exists.", types1))
  /\ (forall name' id',
         truthy (strip (default ""%string name')) = false ->
         add_type types1 name' id' = (Reply400 "Type name cannot be empty.", types1)).
Proof.
  intros Hadd.
  assert (Hdup : forall name' id' id,
             truthy (strip (default ""%string name')) = true ->
             types1 !! id = Some (strip (default ""%string name')) ->
             add_type types1 name' id' = (Reply409 "This product type already exists.", types1)).
  { intros name' id' id Htruthy Hid.
    destruct (add_type_cases types1 name' id')
      as [[Hfalse _]|[(_ & _ & H)|[(_ & Hnone & _)|(_ & Hnone & _)]]];
      [congruence|exact H|by destruct (Hnone id)|by destruct (Hnone id)]. }
  split; [|split].
  - intros name' id' Hsame.
    destruct (add_type_cases types name new_id)
      as [[_ H]|[(_ & _ & H)|[(_ & _ & _ & H)|(Htruthy & _ & _ & H)]]];
      rewrite H in Hadd; try discriminate.
    injection Hadd as <-. apply (Hdup name' id' new_id).
    + by rewrite Hsame.
    + rewrite Hsame. apply lookup_insert_eq.
  - intros id stored id' Hid Htruthy Hstrip. apply (Hdup (Some stored) id' id).
    + change (truthy (strip stored) = true). by rewrite Hstrip.
    + change (types1 !! id = Some (strip stored)). by rewrite Hstrip.
  - intros name' id' Hempty.
    destruct (add_type_cases types1 name' id')
      as [[_ H]|[(Ht & _)|[(Ht & _)|(Ht & _)]]]; [exact H|congruence..].
Qed.

Lemma add_type_rejects_duplicates_witness :
  exists types1,
    add_type ∅ (Some "Fruit"%string) "t1" = (Reply200 "Product type added.", types1)
    /\ add_type types1 (Some "  Fruit "%string) "t2"
       = (Reply409 "This product type already exists.", types1)
    /\ add_type types1 (Some "   "%string) "t2" = (Reply400 "Type name cannot be empty.", types1)
    /\ add_type types1 None "t2" = (Reply400 "Type name cannot be empty.", types1).
Proof.
  assert (Hadd : add_type ∅ (Some "Fruit"%string) "t1"
                 = (Reply200 "Product type added.", <["t1"%string := "Fruit"%string]> ∅))
    by (vm_compute; reflexivity).
  eexists. split; [exact Hadd|].
  destruct (add_type_rejects_duplicates _ _ _ _ Hadd) as (Hsame & _ & Hempty).
  split; [apply Hsame; vm_compute; reflexivity|].
  split; apply Hempty; vm_compute; reflexivity.
Defined.

(** The order of strings is transitive. *)
Lemma compare_lt_trans a b c :
  String.compare a b = Lt -> String.compare b c = Lt -> String.compare a c = Lt.
Proof.
  intros Hab Hbc. apply OrderedTypeEx.String_as_OT.cmp_lt.
  eapply OrderedTypeEx.String_as_OT.lt_trans; apply OrderedTypeEx.String_as_OT.cmp_lt; eassumption.
Qed.

Lemma compare_refl a : String.compare a a = Eq.
Proof. by apply OrderedTypeEx.String_as_OT.cmp_eq. Qed.

Lemma leb_trans a b c :
  String.leb a b = true -> String.leb b c = true -> String.leb a c = true.
Proof.
  unfold String.leb. intros Hab Hbc.
  destruct (String.compare a b) eqn:Eab; [|clear Hab|discriminate].
  - apply OrderedTypeEx.String_as_OT.cmp_eq in Eab. by subst.
  - destruct (String.compare b c) eqn:Ebc; [| |discriminate].
    + apply OrderedTypeEx.String_as_OT.cmp_eq in Ebc. subst. by rewrite Eab.
    + by rewrite (compare_lt_trans _ _ _ Eab Ebc).
Qed.

Lemma insert_by_id_perm doc sorted : insert_by_id doc sorted ≡ₚ doc :: sorted.
Proof.
  induction sorted as [|x rest IH]; [reflexivity|].
  cbn [insert_by_id]. destruct (String.leb _ _); [reflexivity|].
  rewrite IH. apply perm_swap.
Qed.

Lemma get_types_perm types : get_types types ≡ₚ map_to_list types.
Proof.
  unfold get_types. induction (map_to_list types) as [|doc rest IH]; [reflexivity|].
  cbn [foldr]. rewrite insert_by_id_perm. by f_equiv.
Qed.

Lemma elem_of_get_types types id name :
  (id, name) ∈ get_types types <-> types !! id = Some name.
Proof. rewrite get_types_perm. apply elem_of_map_to_list. Qed.

Lemma insert_by_id_sorted doc sorted :
  Sorted.StronglySorted (fun a b => String.leb a.1 b.1 = true) sorted ->
  Sorted.StronglySorted (fun a b => String.leb a.1 b.1 = true) (insert_by_id doc sorted).
Proof.
  induction 1 as [|x rest Hrest IH Hx]; [repeat constructor|].
  cbn [insert_by_id]. destruct (String.leb doc.1 x.1) eqn:Hle.
  - constructor; [by constructor|]. constructor; [exact Hle|].
    eapply Forall_impl; [exact Hx|]. intros y Hy. eapply leb_trans; eassumption.
  - constructor; [exact IH|].
    rewrite insert_by_id_perm. constructor; [|exact Hx].
    destruct (String.leb_total doc.1 x.1) as [H|H]; [congruence|exact H].
Qed.

(** X22. [get_types] lists every type document once, with its id and name,
    in the order of the ids. *)
Theorem get_types_lists_all types :
  (forall id name, (id, name) ∈ get_types types <-> types !! id = Some name)
  /\ NoDup (map fst (get_types types))
  /\ Sorted.StronglySorted (fun a b => String.leb a.1 b.1 = true) (get_types types).
Proof.
  split; [apply elem_of_get_types|]. split.
  - rewrite get_types_perm. apply NoDup_fst_map_to_list.
  - unfold get_types. induction (map_to_list types) as [|doc rest IH]; [constructor|].
    cbn [foldr]. by apply insert_by_id_sorted.
Qed.

(** X9. A type that was just added, under an id that was free, is listed by
    [get_types] with its stripped name; deleting it gives back the types as
    they were; and deleting an id, with or without a document, is answered
    200, after which no type is listed under that id and every other one is
    listed as before. *)
Theorem add_then_delete_type types name new_id types1 :
  add_type types name new_id = (Reply200 "Product type added.", types1) ->
  (new_id, strip (default ""%string name)) ∈ get_types types1
  /\ delete_type types1 new_id = (Reply200 "Product type deleted.", types)
  /\ (forall type_id,
         exists types2,
           delete_type types1 type_id = (Reply200 "Product type deleted.", types2)
           /\ (forall name', ((type_id, name') ∉ get_types types2))
           /\ (forall other name',
                  other <> type_id ->
                  (other, name') ∈ get_types types2 <-> (other, name') ∈ get_types types1)).
Proof.
  intros Hadd.
  destruct (add_type_cases types name new_id)
    as [[_ H]|[(_ & _ & H)|[(_ & _ & _ & H)|(_ & _ & Hnew & H)]]];
    rewrite H in Hadd; try discriminate.
  injection Hadd as <-. split; [|split].
  - apply elem_of_get_types, lookup_insert_eq.
  - unfold delete_type. by rewrite delete_insert_id.
  - intros type_id. eexists. split; [reflexivity|]. split.
    + intros name'. rewrite elem_of_get_types, lookup_delete_eq. discriminate.
    + intros other name' Hother. rewrite !elem_of_get_types.
      by rewrite lookup_delete_ne.
Qed.

Lemma add_then_delete_type_witness :
  exists types1,
    add_type ∅ (Some " Fruit"%string) "t1" = (Reply200 "Product type added.", types1)
    /\ get_types types1 = [("t1"%string, "Fruit"%string)]
    /\ delete_type types1 "t1" = (Reply200 "Product type deleted.", ∅).
Proof.
  assert (Hadd : add_type ∅ (Some " Fruit"%string) "t1"
                 = (Reply200 "Product type added.", <["t1"%string := "Fruit"%string]> ∅))
    by (vm_compute; reflexivity).
  eexists. split; [exact Hadd|].
  destruct (add_then_delete_type _ _ _ _ Hadd) as (_ & Hdelete & _).
  split; [vm_compute; reflexivity|exact Hdelete].
Defined.

(** ** The catalog in the order of its item numbers *)

Lemma insert_ordered_perm entry sorted :
  insert_ordered entry sorted ≡ₚ entry :: sorted.
Proof.
  induction sorted as [|x rest IH]; [reflexivity|].
  cbn [insert_ordered]. destruct (position_leb _ _); [reflexivity|].
  rewrite IH. apply perm_swap.
Qed.

Lemma products_query_perm st :
  products_query st ≡ₚ omap with_item_number (map_to_list (products st)).
Proof.
  unfold products_query. induction (omap with_item_number _) as [|entry rest IH]; [reflexivity|].
  cbn [foldr]. rewrite insert_ordered_perm. by f_equiv.
Qed.

(** The entries of the query are the documents that have the field. *)
Lemma elem_of_products_query st field key p :
  (field, (key, p)) ∈ products_query st
  <-> products st !! key = Some p /\ p_item_number p = Some field.
Proof.
  rewrite products_query_perm, list_elem_of_omap. split.
  - intros ([k q] & Hin & Heq). apply elem_of_map_to_list in Hin.
    unfold with_item_number in Heq. cbn [snd] in Heq.
    destruct (p_item_number q) as [n|] eqn:Hq; [|discriminate]. cbn in Heq.
    injection Heq as <- <- <-. auto.
  - intros [Hp Hfield]. exists (key, p). split; [by apply elem_of_map_to_list|].
    unfold with_item_number. cbn [snd]. rewrite Hfield. reflexivity.
Qed.

Lemma with_item_number_doc doc entry :
  with_item_number doc = Some entry -> entry.2 = doc.
Proof.
  unfold with_item_number. destruct (p_item_number doc.2); [|discriminate].
  cbn. by intros [= <-].
Qed.

Lemma omap_with_item_number_keys (docs : list (string * Product)) :
  NoDup (map fst docs) ->
  NoDup (map (fun entry => entry.2.1) (omap with_item_number docs))
  /\ forall key, key ∈ map (fun entry => entry.2.1) (omap with_item_number docs) ->
                 key ∈ map fst docs.
Proof.
  induction docs as [|doc rest IH]; intros Hnodup.
  - split; [apply NoDup_nil_2|]. intros key Hkey. exact Hkey.
  - cbn [map] in Hnodup. apply NoDup_cons in Hnodup as [Hk Hrest].
    destruct (IH Hrest) as [IHnodup IHsub].
    change (omap with_item_number (doc :: rest))
      with (match with_item_number doc with
            | Some entry => entry :: omap with_item_number rest
            | None => omap with_item_number rest
            end).
    destruct (with_item_number doc) as [entry|] eqn:Hentry.
    + apply with_item_number_doc in Hentry. cbn [map]. rewrite Hentry. split.
      * apply NoDup_cons. split; [|exact IHnodup]. intros Hin. apply Hk, IHsub, Hin.
      * intros key [->|Hin]%elem_of_cons; [apply list_elem_of_here|].
        apply list_elem_of_further, IHsub, Hin.
    + split; [exact IHnodup|]. intros key Hin. apply list_elem_of_further, IHsub, Hin.
Qed.

Lemma products_query_keys st :
  NoDup (map (fun entry => entry.2.1) (products_query st)).
Proof.
  rewrite products_query_perm.
  apply omap_with_item_number_keys, NoDup_fst_map_to_list.
Qed.

(** The order of the places is total and transitive, and two places each
    before the other are one. *)
Lemma position_leb_total a b : position_leb a b = true \/ position_leb b a = true.
Proof.
  unfold position_leb. rewrite (String.compare_antisym b.1 a.1).
  destruct (String.compare a.1 b.1); cbn [CompOpp]; auto. apply String.leb_total.
Qed.

Lemma position_leb_trans a b c :
  position_leb a b = true -> position_leb b c = true -> position_leb a c = true.
Proof.
  unfold position_leb. intros Hab Hbc.
  destruct (String.compare a.1 b.1) eqn:Eab; [| |discriminate].
  - apply OrderedTypeEx.String_as_OT.cmp_eq in Eab. rewrite Eab.
    destruct (String.compare b.1 c.1); [|reflexivity|discriminate].
    eapply leb_trans; eassumption.
  - destruct (String.compare b.1 c.1) eqn:Ebc; [| |discriminate].
    + apply OrderedTypeEx.String_as_OT.cmp_eq in Ebc. rewrite <- Ebc, Eab. reflexivity.
    + by rewrite (compare_lt_trans _ _ _ Eab Ebc).
Qed.

Lemma position_leb_antisym a b :
  position_leb a b = true -> position_leb b a = true -> a = b.
Proof.
  unfold position_leb. rewrite (String.compare_antisym b.1 a.1).
  destruct (String.compare a.1 b.1) eqn:Eab; cbn [CompOpp]; try discriminate.
  apply OrderedTypeEx.String_as_OT.cmp_eq in Eab. intros Hab Hba.
  destruct a, b. cbn [fst snd] in *. f_equal; [exact Eab|].
  by apply String.leb_antisym.
Qed.

Lemma insert_ordered_sorted entry sorted :
  Sorted.StronglySorted in_order sorted ->
  Sorted.StronglySorted in_order (insert_ordered entry sorted).
Proof.
  induction 1 as [|x rest Hrest IH Hx]; [repeat constructor|].
  cbn [insert_ordered]. destruct (position_leb (position entry) (position x)) eqn:Hle.
  - constructor; [by constructor|]. constructor; [exact Hle|].
    eapply Forall_impl; [exact Hx|]. intros y Hy. eapply position_leb_trans; eassumption.
  - constructor; [exact IH|].
    rewrite insert_ordered_perm. constructor; [|exact Hx].
    destruct (position_leb_total (position entry) (position x)) as [H|H]; [congruence|exact H].
Qed.

Lemma products_query_sorted st : Sorted.StronglySorted in_order (products_query st).
Proof.
  unfold products_query. induction (omap with_item_number _) as [|entry rest IH]; [constructor|].
  cbn [foldr]. by apply insert_ordered_sorted.
Qed.

(** ** [get_products] *)

Lemma filter_none {A} (f : A -> bool) (l : list A) :
  (forall x, x ∈ l -> f x = false) -> List.filter f l = [].
Proof.
  induction l as [|x l IH]; intros Hall; [reflexivity|].
  cbn [List.filter]. rewrite (Hall x) by apply list_elem_of_here.
  apply IH. intros y Hy. by apply Hall, list_elem_of_further.
Qed.

Lemma filter_all {A} (f : A -> bool) (l : list A) :
  (forall x, x ∈ l -> f x = true) -> List.filter f l = l.
Proof.
  induction l as [|x l IH]; intros Hall; [reflexivity|].
  cbn [List.filter]. rewrite (Hall x) by apply list_elem_of_here.
  f_equal. apply IH. intros y Hy. by apply Hall, list_elem_of_further.
Qed.

Lemma position_leb_refl a : position_leb a a = true.
Proof. by destruct (position_leb_total a a). Qed.

(** In a list in order whose document ids differ, the entries strictly after
    the place of one of them are the ones that follow it. *)
Lemma filter_strictly_after pre entry rest :
  Sorted.StronglySorted in_order (pre ++ entry :: rest) ->
  NoDup (map (fun e => e.2.1) (pre ++ entry :: rest)) ->
  List.filter (strictly_after (position entry)) (pre ++ entry :: rest) = rest.
Proof.
  intros Hsorted Hnodup.
  apply StronglySorted_app in Hsorted as (Hpre & _ & Hrest).
  apply StronglySorted_cons in Hrest as [Hrest _].
  rewrite map_app in Hnodup. apply NoDup_app in Hnodup as (_ & _ & Hnodup).
  cbn [map] in Hnodup. apply NoDup_cons in Hnodup as [Hfresh _].
  rewrite List.filter_app. cbn [List.filter].
  rewrite filter_none, filter_all.
  - unfold strictly_after. rewrite position_leb_refl. reflexivity.
  - intros x Hx. unfold strictly_after.
    destruct (position_leb (position x) (position entry)) eqn:Hback; [|reflexivity].
    exfalso. apply Hfresh. rewrite Forall_forall in Hrest.
    pose proof (position_leb_antisym _ _ (Hrest x Hx) Hback) as Heq.
    apply list_elem_of_fmap. exists x. split; [|exact Hx].
    unfold position in Heq. congruence.
  - intros x Hx. unfold strictly_after.
    rewrite (Hpre x entry Hx) by apply list_elem_of_here. reflexivity.
Qed.

(** The page that [get_products] answers after the cursor of an entry. *)
Lemma get_products_after st pre entry rest limit :
  products_query st = pre ++ entry :: rest ->
  truthy entry.2.1 = true ->
  0 <= limit ->
  get_products st (Some limit) (Some entry.2.1)
  = ProductsPage (take (Z.to_nat limit) (map listed rest))
                 (Z.of_nat (length (take (Z.to_nat limit) (map listed rest))) =? limit).
Proof.
  intros Hquery Htruthy Hlimit. destruct entry as [field [key p]]. cbn [fst snd] in *.
  assert (Hin : (field, (key, p)) ∈ products_query st).
  { rewrite Hquery. apply elem_of_app. right. apply list_elem_of_here. }
  apply elem_of_products_query in Hin as [Hp Hfield].
  unfold get_products. rewrite Htruthy, Hp. cbn [mbind option_bind]. rewrite Hfield.
  cbn [mbind option_bind].
  pose proof (products_query_sorted st) as Hsorted. pose proof (products_query_keys st) as Hkeys.
  rewrite Hquery in Hsorted, Hkeys |- *.
  change (field, key) with (position (field, (key, p))).
  rewrite (filter_strictly_after _ _ _ Hsorted Hkeys).
  apply Z.ltb_ge in Hlimit. rewrite Hlimit. reflexivity.
Qed.

(** X10. Without a limit, [get_products] answers every product document that
    has an item number, each once, in the order of the item numbers (then of
    the document ids), with [has_next] false; the cursor argument is not
    looked at. *)
Theorem get_products_lists_catalog st start_after :
  exists entries,
    get_products st None start_after = ProductsPage (map listed entries) false
    /\ (forall field key p,
           (field, (key, p)) ∈ entries
           <-> products st !! key = Some p /\ p_item_number p = Some field)
    /\ NoDup (map (fun entry => entry.2.1) entries)
    /\ Sorted.StronglySorted in_order entries
    /\ Sorted.StronglySorted (fun a b => String.leb a.1 b.1 = true) entries.
Proof.
  exists (products_query st). split; [reflexivity|].
  split; [apply elem_of_products_query|]. split; [apply products_query_keys|].
  split; [apply products_query_sorted|].
  pose proof (products_query_sorted st) as Hsorted.
  induction Hsorted as [|x rest Hrest IH Hx]; constructor; [exact IH|].
  eapply Forall_impl; [exact Hx|]. intros y. unfold in_order, position_leb, String.leb, position.
  cbn [fst snd]. destruct (String.compare x.1 y.1); congruence.
Qed.

(** X11. With a limit and the id of a listed document as cursor,
    [get_products] answers the products that follow that document in the
    catalog, up to the limit; with a limit and no cursor, the first ones. So
    the pages, each asked with the id of the last document of the one before,
    put end to end, are the catalog. When [has_next] is false the page holds
    all that follows. *)
Theorem get_products_next_page st pre entry rest limit :
  products_query st = pre ++ entry :: rest ->
  truthy entry.2.1 = true ->
  0 < limit ->
  let page := take (Z.to_nat limit) (map listed rest) in
  let has_next := Z.of_nat (length page) =? limit in
  get_products st (Some limit) (Some entry.2.1) = ProductsPage page has_next
  /\ get_products st (Some limit) None
     = ProductsPage (take (Z.to_nat limit) (map listed (pre ++ entry :: rest)))
                    (Z.of_nat (length (take (Z.to_nat limit) (map listed (pre ++ entry :: rest))))
                     =? limit)
  /\ (has_next = false -> page = map listed rest)
  /\ map listed rest = page ++ drop (Z.to_nat limit) (map listed rest).
Proof.
  intros Hquery Htruthy Hpositive. cbn zeta.
  assert (Hlimit : 0 <= limit) by lia.
  split; [exact (get_products_after st pre entry rest limit Hquery Htruthy Hlimit)|].
  split; [|split].
  - unfold get_products. rewrite Hquery. apply Z.ltb_ge in Hlimit. rewrite Hlimit. reflexivity.
  - intros Hnext. apply Z.eqb_neq in Hnext. apply take_ge.
    rewrite length_take in Hnext. lia.
  - symmetry. apply take_drop.
Qed.

(** The catalog of three products by pages of two. *)
Lemma get_products_next_page_witness :
  get_products catalog (Some 2) None
  = ProductsPage [apple; stocked "B" "Banana" "https://img/b"] true
  /\ get_products catalog (Some 2) (Some "B"%string)
     = ProductsPage [stocked "C" "Cherry" "https://img/c"] false.
Proof.
  split; [vm_compute; reflexivity|].
  destruct (get_products_next_page catalog
              [("A"%string, ("A"%string, apple))]
              ("B"%string, ("B"%string, stocked "B" "Banana" "https://img/b"))
              [("C"%string, ("C"%string, stocked "C" "Cherry" "https://img/c"))] 2)
    as (Hpage & _); [vm_compute; reflexivity|reflexivity|lia|].
  exact Hpage.
Defined.

(** X12. [has_next] only says that the page is full: when exactly [limit]
    products follow the cursor, the page holds them all with [has_next] true,
    and the page asked next, after its last document, is empty with
    [has_next] false. *)
Theorem has_next_before_empty_page st pre entry rest last limit :
  products_query st = pre ++ entry :: rest ++ [last] ->
  truthy entry.2.1 = true ->
  truthy last.2.1 = true ->
  Z.of_nat (length (rest ++ [last])) = limit ->
  get_products st (Some limit) (Some entry.2.1) = ProductsPage (map listed (rest ++ [last])) true
  /\ get_products st (Some limit) (Some last.2.1) = ProductsPage [] false.
Proof.
  intros Hquery Hentry Hlast Hlimit. split.
  - rewrite (get_products_after st pre entry (rest ++ [last]) limit Hquery Hentry) by lia.
    rewrite take_ge by (rewrite length_map; lia).
    rewrite length_map, Hlimit, Z.eqb_refl. reflexivity.
  - change (pre ++ entry :: rest ++ [last]) with (pre ++ (entry :: rest) ++ [last]) in Hquery.
    rewrite app_assoc in Hquery.
    rewrite (get_products_after st _ last [] limit Hquery Hlast) by lia.
    change (map listed []) with (@nil Product).
    rewrite take_nil. cbn [length]. rewrite length_app in Hlimit. cbn [length] in Hlimit.
    destruct (Z.eqb_spec (Z.of_nat 0) limit); [lia|reflexivity].
Qed.

(** The catalog of three products, after A by pages of two. *)
Lemma has_next_before_empty_page_witness :
  get_products catalog (Some 2) (Some "A"%string)
  = ProductsPage [stocked "B" "Banana" "https://img/b"; stocked "C" "Cherry" "https://img/c"] true
  /\ get_products catalog (Some 2) (Some "C"%string) = ProductsPage [] false.
Proof.
  apply (has_next_before_empty_page catalog []
           ("A"%string, ("A"%string, apple))
           [("B"%string, ("B"%string, stocked "B" "Banana" "https://img/b"))]
           ("C"%string, ("C"%string, stocked "C" "Cherry" "https://img/c")) 2);
    [vm_compute; reflexivity|reflexivity|reflexivity|reflexivity].
Defined.

(** ** [generate_stock_pdf] *)

Lemma report_row_of_None fetch_aspect p :
  report_row_of fetch_aspect p = None <-> p_image_urls p = Some [].
Proof.
  unfold report_row_of, first_image.
  destruct (p_image_urls p) as [[|url urls]|]; cbn; split; congruence.
Qed.

Lemma report_error fetch_aspect st key p :
  products st !! key = Some p ->
  is_Some (p_item_number p) ->
  p_image_urls p = Some [] ->
  generate_stock_pdf fetch_aspect st = ReportError500.
Proof.
  intros Hp [field Hfield] Hurls. unfold generate_stock_pdf.
  assert (Hnone : mapM (fun entry => report_row_of fetch_aspect entry.2.2) (products_query st) = None).
  { apply mapM_None, Exists_exists. exists (field, (key, p)).
    split; [by apply elem_of_products_query|]. by apply report_row_of_None. }
  rewrite Hnone. reflexivity.
Qed.

(** X13. The stock report is answered 500 exactly when some product document
    with an item number has an empty list of image URLs; and it is the
    paragraph "No products in inventory." exactly when no product document has
    an item number. Otherwise it is the table, with one row per such
    document, in the order of the catalog. *)
Theorem report_fails_on_empty_image_list fetch_aspect st :
  (generate_stock_pdf fetch_aspect st = ReportError500
   <-> exists key p, products st !! key = Some p /\ is_Some (p_item_number p)
                     /\ p_image_urls p = Some [])
  /\ (generate_stock_pdf fetch_aspect st = ReportNoProducts
      <-> forall key p, products st !! key = Some p -> p_item_number p = None)
  /\ (forall rows,
         generate_stock_pdf fetch_aspect st = ReportTable rows ->
         rows <> []
         /\ Forall2 (fun entry row => report_row_of fetch_aspect (listed entry) = Some row)
                    (products_query st) rows).
Proof.
  split; [|split].
  - split.
    + unfold generate_stock_pdf.
      destruct (mapM _ (products_query st)) as [[|row rows]|] eqn:Hrows; try discriminate.
      intros _. apply mapM_None, Exists_exists in Hrows as ([field [key p]] & Hin & Hnone).
      apply elem_of_products_query in Hin as [Hp Hfield]. apply report_row_of_None in Hnone.
      exists key, p. rewrite Hfield. eauto.
    + intros (key & p & Hp & Hfield & Hurls). eapply report_error; eassumption.
  - split.
    + unfold generate_stock_pdf.
      destruct (mapM _ (products_query st)) as [[|row rows]|] eqn:Hrows; try discriminate.
      intros _ key p Hp. apply mapM_Some in Hrows. apply Forall2_nil_inv_r in Hrows.
      destruct (p_item_number p) as [field|] eqn:Hfield; [|reflexivity].
      assert (Hin : (field, (key, p)) ∈ products_query st) by by apply elem_of_products_query.
      rewrite Hrows in Hin. by apply elem_of_nil in Hin.
    + intros Hnone. unfold generate_stock_pdf.
      assert (Hempty : products_query st = []).
      { destruct (products_query st) as [|[field [key p]] rest] eqn:Hquery; [reflexivity|].
        assert (Hin : (field, (key, p)) ∈ products_query st)
          by (rewrite Hquery; apply list_elem_of_here).
        apply elem_of_products_query in Hin as [Hp Hfield].
        rewrite (Hnone key p Hp) in Hfield. discriminate. }
      rewrite Hempty. reflexivity.
  - intros rows. unfold generate_stock_pdf.
    destruct (mapM _ (products_query st)) as [[|row rows']|] eqn:Hrows; try discriminate.
    intros [= <-]. split; [discriminate|]. by apply mapM_Some in Hrows.
Qed.



(** ** [require_auth] *)

Lemma append_cons c r s : String c r +:+ s = String c (r +:+ s).
Proof. reflexivity. Qed.

Lemma append_empty_r s : s +:+ EmptyString = s.
Proof. induction s as [|c r IH]; [reflexivity|]. by rewrite append_cons, IH. Qed.

Lemma append_assoc s1 s2 s3 : (s1 +:+ s2) +:+ s3 = s1 +:+ (s2 +:+ s3).
Proof. induction s1 as [|c r IH]; [reflexivity|]. by rewrite !append_cons, IH. Qed.

Lemma prefix_append sep t : String.prefix sep (sep +:+ t) = true.
Proof.
  induction sep as [|c sep IH]; [by destruct t|].
  rewrite append_cons. cbn [String.prefix].
  destruct (Ascii.ascii_dec c c); [exact IH|congruence].
Qed.

Lemma split_last_no_occurrence sep s piece :
  occurs sep s = false -> split_last sep s 0 piece = piece +:+ s.
Proof.
  revert piece. induction s as [|c r IH]; intros piece Hocc.
  - cbn [split_last]. by rewrite append_empty_r.
  - cbn [occurs] in Hocc. apply orb_false_elim in Hocc as [Hprefix Hocc].
    cbn [split_last]. rewrite Hprefix, (IH _ Hocc), append_assoc. reflexivity.
Qed.

Lemma split_last_skip sep u t piece :
  split_last sep (u +:+ t) (String.length u) piece = split_last sep t 0 piece.
Proof.
  induction u as [|c u IH]; [reflexivity|].
  rewrite append_cons. cbn [String.length split_last]. exact IH.
Qed.

Lemma split_last_after_separator c sep t piece :
  split_last (String c sep) (String c sep +:+ t) 0 piece
  = split_last (String c sep) t 0 EmptyString.
Proof.
  pose proof (prefix_append (String c sep) t) as Hprefix.
  rewrite append_cons in Hprefix |- *. cbn [split_last]. rewrite Hprefix.
  replace (String.length (String c sep) - 1)%nat with (String.length sep)
    by (cbn [String.length]; lia).
  apply split_last_skip.
Qed.

(** X15. [require_auth] answers 401 "Authorization token required." without
    running the handler when the Authorization header is missing, empty, or
    holds nothing after "Bearer ". For a non-empty token in which "Bearer "
    does not occur, the header "Bearer " followed by the token and the header
    that is the token alone are served alike: the handler runs with the user
    id the verifier gives for that token, and 401 is answered when the
    verifier refuses it. *)
Theorem require_auth_reads_token {A} verify_id_token (f : string -> A) :
  require_auth verify_id_token f None = TokenRequired401
  /\ require_auth verify_id_token f (Some ""%string) = TokenRequired401
  /\ require_auth verify_id_token f (Some "Bearer "%string) = TokenRequired401
  /\ (forall token,
         occurs "Bearer " token = false -> truthy token = true ->
         require_auth verify_id_token f (Some ("Bearer " +:+ token))
         = verified verify_id_token f token
         /\ require_auth verify_id_token f (Some token) = verified verify_id_token f token).
Proof.
  split; [reflexivity|]. split; [reflexivity|]. split; [reflexivity|].
  intros token Hocc Htruthy. unfold require_auth. cbn [default from_option id].
  rewrite split_last_after_separator, !(split_last_no_occurrence _ _ _ Hocc).
  change (EmptyString +:+ token) with token. rewrite Htruthy. split; reflexivity.
Qed.

(** The token "tok" with and without the scheme, and another token. *)
Lemma require_auth_reads_token_witness :
  require_auth one_token (fun uid => uid) (Some "Bearer tok"%string) = Handled "u1"%string
  /\ require_auth one_token (fun uid => uid) (Some "tok"%string) = Handled "u1"%string
  /\ require_auth one_token (fun uid => uid) (Some "Bearer other"%string) = InvalidToken401.
Proof.
  destruct (require_auth_reads_token one_token (fun uid => uid)) as (_ & _ & _ & Htoken).
  destruct (Htoken "tok"%string) as [Hbearer Hbare]; [reflexivity|reflexivity|].
  destruct (Htoken "other"%string) as [Hother _]; [reflexivity|reflexivity|].
  split; [exact Hbearer|]. split; [exact Hbare|exact Hother].
Defined.

(** ** Sales one after the other *)

Arguments sold : simpl never.

Lemma sold_cons item rest key :
  sold (item :: rest) key
  = (if String.eqb (key_of item) key then requested item else 0) + sold rest key.
Proof. reflexivity. Qed.

Lemma sold_app pre post key : sold (pre ++ post) key = sold pre key + sold post key.
Proof.
  induction pre as [|item pre IH]; [reflexivity|].
  cbn [app]. rewrite !sold_cons, IH. lia.
Qed.

Lemma sold_other payload key : key ∉ map key_of payload -> sold payload key = 0.
Proof.
  induction payload as [|item rest IH]; intros Hnot; [reflexivity|].
  cbn [map] in Hnot. apply not_elem_of_cons in Hnot as [Hne Hnot].
  rewrite sold_cons, (IH Hnot).
  destruct (String.eqb_spec (key_of item) key); [congruence|reflexivity].
Qed.

(** One sale with pairwise different products takes from every product what
    its lines ask for. *)
Lemma record_sale_takes_sold st payload sale_id now msg st' key :
  record_sale st payload sale_id now = (Ok200 msg, st') ->
  NoDup (map key_of payload) ->
  quantity_of st' key = (fun z => z - sold payload key) <$> quantity_of st key.
Proof.
  intros Hsale Hnodup.
  destruct (decide (key ∈ map key_of payload)) as [Hin|Hnot].
  - apply list_elem_of_fmap in Hin as (item & -> & Hin).
    destruct (list_elem_of_split _ _ Hin) as (pre & post & ->).
    rewrite map_app in Hnodup. cbn [map] in Hnodup.
    apply NoDup_app in Hnodup as (_ & Hpre & Hpost). apply NoDup_cons in Hpost as [Hpost _].
    assert (Hpre' : key_of item ∉ map key_of pre).
    { intros Hk. apply (Hpre _ Hk), list_elem_of_here. }
    rewrite (record_sale_last_line _ _ _ _ _ _ _ _ Hsale Hpost).
    rewrite sold_app, sold_cons, (sold_other _ _ Hpre'), (sold_other _ _ Hpost), String.eqb_refl.
    destruct (record_sale_inv _ _ _ _ _ _ Hsale) as (_ & Hpass & _).
    apply passes_exists in Hpass. rewrite Forall_forall in Hpass.
    destruct (Hpass item Hin) as [p Hp]. unfold quantity_of, on_hand. rewrite Hp.
    cbn. f_equal. lia.
  - unfold quantity_of. rewrite (record_sale_other _ _ _ _ _ _ _ Hsale Hnot), (sold_other _ _ Hnot).
    destruct (products st !! key); cbn; [f_equal; lia|reflexivity].
Qed.

Lemma record_sale_named_nonnegative st payload sale_id now msg st' key :
  record_sale st payload sale_id now = (Ok200 msg, st') ->
  key ∈ map key_of payload ->
  exists q, quantity_of st' key = Some q /\ 0 <= q.
Proof.
  intros Hsale Hin.
  destruct (last_line_naming _ _ Hin) as (pre & item & post & -> & <- & Hlast).
  rewrite (record_sale_last_line _ _ _ _ _ _ _ _ Hsale Hlast).
  destruct (record_sale_inv _ _ _ _ _ _ Hsale) as (_ & Hpass & _).
  eexists. split; [reflexivity|].
  pose proof (passes_stock _ _ item Hpass) as Hstock.
  specialize (Hstock ltac:(apply elem_of_app; right; apply list_elem_of_here)). lia.
Qed.

Lemma record_sales_snoc st orders order :
  record_sales st (orders ++ [order]) = (place_order (record_sales st orders) order).2.
Proof. unfold record_sales. by rewrite fold_left_app. Qed.

Lemma all_recorded_snoc st orders order :
  all_recorded st (orders ++ [order])
  <-> all_recorded st orders
      /\ (place_order (record_sales st orders) order).1 = Ok200 "Sale recorded successfully!".
Proof.
  revert st. induction orders as [|o rest IH]; intros st.
  - cbn. tauto.
  - cbn [app all_recorded]. rewrite IH. cbn [record_sales fold_left]. tauto.
Qed.

(** X16. For every list of sales that are all recorded, one after the other,
    and each with lines naming pairwise different products: every product is
    left with its initial quantity minus all that the lines naming it ask
    for, whether it exists or not; and a product that a line of the last sale
    names is not left with a negative quantity. *)
Theorem record_sales_conserve_stock st orders :
  all_recorded st orders ->
  Forall (fun order => NoDup (map key_of order.1.1)) orders ->
  (forall key,
      quantity_of (record_sales st orders) key
      = (fun z => z - total_sold orders key) <$> quantity_of st key)
  /\ (forall pre order key,
         orders = pre ++ [order] -> key ∈ map key_of order.1.1 ->
         exists q, quantity_of (record_sales st orders) key = Some q /\ 0 <= q).
Proof.
  intros Hall Hdistinct. split.
  - revert st Hall. induction Hdistinct as [|order rest Horder Hrest IH]; intros st Hall key.
    + cbn. destruct (quantity_of st key); cbn; [f_equal; lia|reflexivity].
    + destruct Hall as [Hfirst Hall]. cbn [record_sales fold_left].
      fold (record_sales (place_order st order).2 rest). rewrite (IH _ Hall).
      destruct (place_order st order) as [answer st1] eqn:Hplace. cbn [fst snd] in *. subst answer.
      unfold place_order in Hplace.
      rewrite (record_sale_takes_sold _ _ _ _ _ _ key Hplace Horder).
      cbn [total_sold foldr]. fold (total_sold rest key).
      destruct (quantity_of st key); cbn; [f_equal; lia|reflexivity].
  - intros pre order key -> Hkey. apply all_recorded_snoc in Hall as [_ Hlast].
    rewrite record_sales_snoc.
    destruct (place_order (record_sales st pre) order) as [answer st1] eqn:Hplace.
    cbn [fst snd] in *. subst answer. unfold place_order in Hplace.
    eapply record_sale_named_nonnegative; eassumption.
Qed.

(** Two sales of product A, of 3 and of 4, from 10: 3 are left. *)
Lemma record_sales_conserve_stock_witness :
  quantity_of (record_sales shop [([line "A" 3 8], "s1"%string, noon);
                                  ([line "a" 4 8], "s2"%string, noon)]) "A"
  = Some 3.
Proof.
  destruct (record_sales_conserve_stock shop
              [([line "A" 3 8], "s1"%string, noon); ([line "a" 4 8], "s2"%string, noon)])
    as [Hquantity _].
  - vm_compute. auto.
  - repeat constructor; apply not_elem_of_nil.
  - rewrite Hquantity. vm_compute. reflexivity.
Defined.

(** ** [delete_product] once more *)

Lemma elem_of_sales_query st key id sale :
  (id, sale) ∈ sales_query st key
  <-> sales st !! id = Some sale /\ array_contains (items sale) (item_number_only key) = true.
Proof. unfold sales_query. by rewrite elem_of_list_filter, elem_of_map_to_list. Qed.

Lemma record_sale_missing st pre item post sale_id now :
  forallb (passes (products st)) pre = true ->
  products st !! key_of item = None ->
  record_sale st (pre ++ item :: post) sale_id now
  = (BadRequest400 ("Product " +:+ key_of item +:+ " not found."), st).
Proof.
  intros Hpre Hnone. rewrite record_sale_nonempty by (destruct pre; discriminate).
  unfold update_in_transaction. rewrite (read_and_check_missing _ _ _ _ _ Hpre Hnone).
  reflexivity.
Qed.

(** X17. Deleting a product a second time, under any spelling of its item
    number with the same upper case, is answered the success and changes
    nothing more; and after the deletion, when the item number is a document
    id, a sale whose first line names the product is refused with
    "Product K not found." and changes nothing. *)
Theorem delete_product_idempotent st item_number :
  (forall again,
      upper again = upper item_number ->
      delete_product (delete_product st item_number).2 again
      = (Ok200 "Product and associated sales deleted.", (delete_product st item_number).2))
  /\ (forall item post sale_id now,
         document_id (upper item_number) = true ->
         key_of item = upper item_number ->
         record_sale (delete_product st item_number).2 (item :: post) sale_id now
         = (BadRequest400 ("Product " +:+ upper item_number +:+ " not found."),
            (delete_product st item_number).2)).
Proof.
  rewrite delete_product_result. cbn [snd]. split.
  - intros again Hagain. rewrite delete_product_result, Hagain. cbn [products sales].
    f_equal. f_equal; [apply delete_delete_eq|].
    assert (Hnone : sales_query
                      {| products := delete (upper item_number) (products st);
                         sales := delete_all (map fst (sales_query st (upper item_number))) (sales st) |}
                      (upper item_number) = []).
    { apply filter_none. intros [id sale] Hin.
      destruct (array_contains (items sale) (item_number_only (upper item_number))) eqn:Hmatch;
        [|exact Hmatch].
      exfalso. apply elem_of_map_to_list in Hin. cbn [sales] in Hin.
      rewrite delete_all_lookup in Hin. case_decide as Hid; [discriminate|].
      apply Hid, list_elem_of_fmap. exists (id, sale). split; [reflexivity|].
      by apply elem_of_sales_query. }
    rewrite Hnone. reflexivity.
  - intros item post sale_id now _ Hkey. rewrite <- Hkey.
    apply (record_sale_missing _ [] item post); [reflexivity|].
    cbn [products]. rewrite Hkey. apply lookup_delete_eq.
Qed.

(** Product A is deleted as "a", then as "A"; then a sale of it is refused. *)
Lemma delete_product_idempotent_witness :
  delete_product (delete_product shop "a").2 "A"
  = (Ok200 "Product and associated sales deleted.", {| products := ∅; sales := ∅ |})
  /\ record_sale (delete_product shop "a").2 [line "A" 1 8] "s1" noon
     = (BadRequest400 "Product A not found.", {| products := ∅; sales := ∅ |}).
Proof.
  destruct (delete_product_idempotent shop "a") as [Hagain Hsale].
  assert (Hdeleted : (delete_product shop "a").2 = {| products := ∅; sales := ∅ |})
    by (vm_compute; reflexivity).
  rewrite <- Hdeleted. split.
  - apply Hagain. vm_compute. reflexivity.
  - apply (Hsale (line "A" 1 8) [] "s1"%string noon); vm_compute; reflexivity.
Defined.

(** ** [delete_sale] on any sale *)

Lemma restored_nonnegative sale_items key : 0 <= restored sale_items key.
Proof.
  induction sale_items as [|item rest IH]; [reflexivity|].
  rewrite restored_cons. unfold restores.
  destruct (item_number item) as [n|]; [|lia].
  destruct (truthy n); cbn [andb]; [|lia].
  destruct (0 <? requested item) eqn:Hpos; cbn [andb]; [|lia].
  apply Z.ltb_lt in Hpos. destruct (String.eqb n key); lia.
Qed.

Lemma increment_numeric n q : increment n q = QNumber (numeric q + n).
Proof. destruct q; reflexivity. Qed.

(** The restoring writes on documents that exist, whatever their quantity
    fields hold. *)
Lemma commit_restore_any sale_items st :
  (forall w, w ∈ restore_writes sale_items -> is_Some (products st !! target w)) ->
  exists st',
    commit st (restore_writes sale_items) = Some st'
    /\ sales st' = sales st
    /\ forall key,
        products st' !! key
        = (fun p => if 0 <? restored sale_items key
                    then with_quantity p (QNumber (numeric (p_quantity p) + restored sale_items key))
                    else p)
          <$> products st !! key.
Proof.
  revert st. induction sale_items as [|item rest IH]; intros st Hdocs.
  - exists st. split; [reflexivity|]. split; [reflexivity|].
    intros key. change (restored [] key) with 0. by destruct (products st !! key).
  - cbn [restore_writes] in Hdocs |- *. fold (requested item) in Hdocs |- *.
    assert (Hcons := restored_cons item rest). unfold restores in Hcons.
    destruct (item_number item) as [n|];
      [destruct (truthy n && (0 <? requested item))%bool eqn:Hguard|].
    + destruct (Hdocs (IncrementQuantity n (requested item))) as [p Hp];
        [apply list_elem_of_here|]. cbn [target] in Hp.
      cbn [commit apply_write]. rewrite Hp, increment_numeric.
      set (p' := with_quantity p (QNumber (numeric (p_quantity p) + requested item))).
      destruct (IH {| products := <[n := p']> (products st); sales := sales st |})
        as (st' & Hcommit & Hsales & Hproducts).
      { intros w Hw. cbn [products].
        destruct (decide (n = target w)) as [<-|Hne].
        - rewrite lookup_insert_eq. eauto.
        - rewrite lookup_insert_ne by exact Hne. apply Hdocs. by apply list_elem_of_further. }
      exists st'. split; [exact Hcommit|]. split; [exact Hsales|].
      intros key. rewrite Hproducts, Hcons. cbn [products andb].
      apply andb_prop in Hguard as [_ Hpos]. apply Z.ltb_lt in Hpos.
      pose proof (restored_nonnegative rest key) as Hrest.
      destruct (decide (n = key)) as [<-|Hne].
      * rewrite lookup_insert_eq, Hp, String.eqb_refl. cbn [fmap option_fmap option_map].
        f_equal. replace (0 <? requested item + restored rest n) with true
          by (symmetry; apply Z.ltb_lt; lia).
        destruct (0 <? restored rest n) eqn:Hmore.
        -- subst p'. unfold with_quantity. cbn [p_quantity numeric]. do 2 f_equal. lia.
        -- apply Z.ltb_ge in Hmore. subst p'. do 2 f_equal. lia.
      * rewrite lookup_insert_ne by exact Hne.
        apply String.eqb_neq in Hne. rewrite Hne. cbn [Z.add]. reflexivity.
    + destruct (IH st) as (st' & Hcommit & Hsales & Hproducts); [exact Hdocs|].
      exists st'. split; [exact Hcommit|]. split; [exact Hsales|].
      intros key. rewrite Hproducts, Hcons. cbn [andb Z.add]. reflexivity.
    + destruct (IH st) as (st' & Hcommit & Hsales & Hproducts); [exact Hdocs|].
      exists st'. split; [exact Hcommit|]. split; [exact Hsales|].
      intros key. rewrite Hproducts, Hcons. cbn [Z.add]. reflexivity.
Qed.



(** ** Sales and their listing *)

Lemma commit_restore_sales sale_items st st' :
  commit st (restore_writes sale_items) = Some st' -> sales st' = sales st.
Proof.
  assert (Hws : Forall (fun w => exists k n, w = IncrementQuantity k n)
                       (restore_writes sale_items)).
  { apply Forall_forall. intros w Hw.
    destruct (restore_writes_targets _ _ Hw) as (x & _ & _ & ->). eauto. }
  revert st. induction Hws as [|w ws (k & n & ->) _ IH]; intros st; [by intros [= <-]|].
  cbn [commit apply_write]. destruct (products st !! k); [|discriminate].
  intros Hcommit. by rewrite (IH _ Hcommit).
Qed.

Lemma delete_sale_sales st sale_id msg st' :
  delete_sale st sale_id = (Ok200 msg, st') -> sales st' = delete sale_id (sales st).
Proof.
  unfold delete_sale, run_transaction, restore_stock_and_delete_sale.
  destruct (sales st !! sale_id) as [sale|]; [|discriminate]. cbn [ret bind].
  rewrite commit_app.
  destruct (commit st (restore_writes (items sale))) as [st1|] eqn:Hcommit; [|discriminate].
  cbn. intros [= _ <-]. cbn [sales]. by rewrite (commit_restore_sales _ _ _ Hcommit).
Qed.

Lemma elem_of_get_sales_all timestamp_of st id sale :
  (id, sale) ∈ (get_sales timestamp_of st None None).1 <-> sales st !! id = Some sale.
Proof.
  cbn [get_sales fst]. unfold sales_stream.
  rewrite order_by_timestamp_descending_perm. apply elem_of_map_to_list.
Qed.

(** X19. A recorded sale is listed by [get_sales] without a filter, under
    the id drawn for it and with its lines as stored, and the sales under
    other ids are listed as before; once [delete_sale] of it succeeds, no sale
    is listed under that id, and the others still are. *)
Theorem sale_listed_until_deleted timestamp_of st payload sale_id now st1 :
  record_sale st payload sale_id now = (Ok200 "Sale recorded successfully!", st1) ->
  (sale_id, sale_document (products st) payload now) ∈ (get_sales timestamp_of st1 None None).1
  /\ (forall id sale,
         id <> sale_id ->
         (id, sale) ∈ (get_sales timestamp_of st1 None None).1
         <-> (id, sale) ∈ (get_sales timestamp_of st None None).1)
  /\ (forall msg st2,
         delete_sale st1 sale_id = (Ok200 msg, st2) ->
         (forall sale, ((sale_id, sale) ∉ (get_sales timestamp_of st2 None None).1))
         /\ (forall id sale,
                id <> sale_id ->
                (id, sale) ∈ (get_sales timestamp_of st2 None None).1
                <-> (id, sale) ∈ (get_sales timestamp_of st None None).1)).
Proof.
  intros Hsale.
  destruct (record_sale_inv _ _ _ _ _ _ Hsale) as (Hne & Hpass & Hcomplete).
  destruct (record_sale_ok st _ sale_id now Hne Hpass Hcomplete) as (st1' & Hok & Hsales & _).
  rewrite Hsale in Hok. injection Hok as <-.
  split; [|split].
  - apply elem_of_get_sales_all. rewrite Hsales. apply lookup_insert_eq.
  - intros id sale Hid. rewrite !elem_of_get_sales_all, Hsales.
    by rewrite lookup_insert_ne.
  - intros msg st2 Hdelete. apply delete_sale_sales in Hdelete. split.
    + intros sale. rewrite elem_of_get_sales_all, Hdelete, lookup_delete_eq. discriminate.
    + intros id sale Hid. rewrite !elem_of_get_sales_all, Hdelete, Hsales.
      rewrite lookup_delete_ne by congruence. by rewrite lookup_insert_ne.
Qed.

(** The sale of three of product A is the one listed sale, and none is
    listed once it is deleted. *)
Lemma sale_listed_until_deleted_witness :
  map fst (get_sales utc_timestamp after_sale None None).1 = ["s1"%string]
  /\ (get_sales utc_timestamp (delete_sale after_sale "s1").2 None None).1 = [].
Proof.
  destruct (sale_listed_until_deleted utc_timestamp shop [line "A" 3 8] "s1" noon after_sale)
    as (_ & _ & _); [vm_compute; reflexivity|].
  split; vm_compute; reflexivity.
Defined.

(** ** Saving a product, then selling and listing it *)

(** X20. A product saved with the item number [n], a document id once
    uppercased, and the quantity [q] can then be sold under any spelling of
    [n] with the same upper case: a single complete line asking for at most
    [q] is recorded and leaves [q] minus what it asks for, when both that and
    what it asks for are within 64 bits; and one asking for more is refused
    for lack of stock and changes nothing. *)
Theorem saved_product_sells st product_data kept uploaded msg st1 n q item sale_id now :
  add_update_product st product_data kept uploaded = (Ok200 msg, st1) ->
  f_item_number product_data = Some n ->
  f_quantity product_data = Some q ->
  document_id (upper n) = true ->
  key_of item = upper n ->
  complete item = true ->
  (requested item <= q ->
   int64 (requested item) = true ->
   int64 (q - requested item) = true ->
   exists st2,
     record_sale st1 [item] sale_id now = (Ok200 "Sale recorded successfully!", st2)
     /\ quantity_of st2 (upper n) = Some (q - requested item))
  /\ (q < requested item ->
      exists name,
        record_sale st1 [item] sale_id now
        = (BadRequest400 ("Not enough stock for " +:+ name +:+ "."), st1)).
Proof.
  unfold add_update_product. intros Hsave Hn Hq _ Hkey Hcomplete.
  rewrite Hn, Hq in Hsave. cbn [default from_option id] in Hsave.
  destruct (negb (truthy (upper n))); [discriminate|].
  injection Hsave as _ <-.
  set (doc := {| p_item_number := Some (upper n); p_quantity := QText q |}).
  assert (Hdoc : <[upper n := doc]> (products st) !! key_of item = Some doc)
    by (rewrite Hkey; apply lookup_insert_eq).
  split.
  - intros Hstock _ _.
    destruct (record_sale_ok {| products := <[upper n := doc]> (products st); sales := sales st |}
                [item] sale_id now) as (st2 & Hok & _ & _).
    + discriminate.
    + cbn [forallb products]. unfold passes. rewrite Hdoc. cbn [p_quantity doc int_quantity].
      apply Z.ltb_ge in Hstock. rewrite Hstock. reflexivity.
    + cbn [forallb]. rewrite Hcomplete. reflexivity.
    + exists st2. split; [exact Hok|]. rewrite <- Hkey.
      rewrite (record_sale_last_line _ [] item [] _ _ _ _ Hok) by apply not_elem_of_nil.
      cbn [products]. unfold on_hand. rewrite Hdoc. reflexivity.
  - intros Hshort. eexists.
    rewrite record_sale_nonempty by discriminate. unfold update_in_transaction.
    rewrite (read_and_check_short _ [] item [] _ doc); [reflexivity|reflexivity|exact Hdoc|exact Hshort].
Qed.

(** Product D is saved with the quantity 4 under "d" and sold under "D". *)
Lemma saved_product_sells_witness :
  exists st2,
    record_sale (add_update_product orchard date_form [] []).2 [line "D" 3 8] "s1" noon
    = (Ok200 "Sale recorded successfully!", st2)
    /\ quantity_of st2 "D" = Some 1.
Proof.
  destruct (saved_product_sells orchard date_form [] [] "Product saved successfully."
              (add_update_product orchard date_form [] []).2 "d" 4 (line "D" 3 8) "s1" noon)
    as [Hsells _]; [vm_compute; reflexivity|reflexivity|reflexivity|vm_compute; reflexivity
                   |vm_compute; reflexivity|reflexivity|].
  apply Hsells; [vm_compute; discriminate|vm_compute; reflexivity|vm_compute; reflexivity].
Defined.


